(** * Authentication service of runtipi (auth.service.ts)

    A shallow embedding of [AuthServiceClass]: the user table, the cache
    shared by every [TipiCache] client, the password-change-request file
    and the demo-mode flag form one explicit world that each operation
    threads; [throw] is a result value that carries the world at the point
    of the throw.  Strings are Rocq strings (one character per [ascii]). *)

From Stdlib Require Import String Ascii NArith List Bool Lia.
From Stdlib Require Import DecimalString DecimalN.
From stdpp Require Import gmap strings list fin_maps.

Local Open Scope string_scope.

(** ** Error keys thrown as [TranslatedError] *)

Inductive Error : Type :=
| user_not_found                (* server-messages.errors.user-not-found *)
| invalid_credentials           (* server-messages.errors.invalid-credentials *)
| totp_session_not_found        (* server-messages.errors.totp-session-not-found *)
| totp_not_enabled              (* server-messages.errors.totp-not-enabled *)
| totp_invalid_code             (* server-messages.errors.totp-invalid-code *)
| not_allowed_in_demo           (* server-messages.errors.not-allowed-in-demo *)
| invalid_password              (* server-messages.errors.invalid-password *)
| totp_already_enabled          (* server-messages.errors.totp-already-enabled *)
| admin_already_exists          (* server-messages.errors.admin-already-exists *)
| missing_email_or_password     (* server-messages.errors.missing-email-or-password *)
| invalid_username              (* server-messages.errors.invalid-username *)
| user_already_exists           (* server-messages.errors.user-already-exists *)
| error_creating_user           (* server-messages.errors.error-creating-user *)
| no_change_password_request    (* server-messages.errors.no-change-password-request *)
| operator_not_found            (* server-messages.errors.operator-not-found *)
| invalid_password_length       (* server-messages.errors.invalid-password-length *)
| invalid_locale.               (* server-messages.errors.invalid-locale *)

(** ** User rows *)

Module User.
Record t : Type := mk {
  id : N;
  username : string;
  password : string;
  totpEnabled : bool;
  totpSecret : option string;
  salt : option string;
  locale : string;
  operator : bool
}.
End User.

(** One property of the object literal handed to [updateUser]. *)
Inductive Field : Type :=
| set_username (v : string)
| set_password (v : string)
| set_totpEnabled (v : bool)
| set_totpSecret (v : option string)
| set_salt (v : string)
| set_locale (v : string).

Definition assign (u : User.t) (f : Field) : User.t :=
  match f with
  | set_username v =>
      User.mk (User.id u) v (User.password u) (User.totpEnabled u)
        (User.totpSecret u) (User.salt u) (User.locale u) (User.operator u)
  | set_password v =>
      User.mk (User.id u) (User.username u) v (User.totpEnabled u)
        (User.totpSecret u) (User.salt u) (User.locale u) (User.operator u)
  | set_totpEnabled v =>
      User.mk (User.id u) (User.username u) (User.password u) v
        (User.totpSecret u) (User.salt u) (User.locale u) (User.operator u)
  | set_totpSecret v =>
      User.mk (User.id u) (User.username u) (User.password u) (User.totpEnabled u)
        v (User.salt u) (User.locale u) (User.operator u)
  | set_salt v =>
      User.mk (User.id u) (User.username u) (User.password u) (User.totpEnabled u)
        (User.totpSecret u) (Some v) (User.locale u) (User.operator u)
  | set_locale v =>
      User.mk (User.id u) (User.username u) (User.password u) (User.totpEnabled u)
        (User.totpSecret u) (User.salt u) v (User.operator u)
  end.

Definition patch (u : User.t) (fields : list Field) : User.t :=
  fold_left assign fields u.

(** ** The world the service runs in *)

Record World : Type := mkWorld {
  users : list User.t;                 (* the user table *)
  cache : gmap string string;          (* the store behind every TipiCache client *)
  passwordChangeRequest : bool;        (* /runtipi/state/password-change-request exists *)
  demoMode : bool;                     (* TipiConfig.getConfig().demoMode *)
  entropy : nat                        (* number of random draws made so far *)
}.

Definition with_users (f : list User.t → list User.t) (w : World) : World :=
  mkWorld (f (users w)) (cache w) (passwordChangeRequest w) (demoMode w) (entropy w).

Definition with_cache (f : gmap string string → gmap string string) (w : World) : World :=
  mkWorld (users w) (f (cache w)) (passwordChangeRequest w) (demoMode w) (entropy w).

Definition with_passwordChangeRequest (b : bool) (w : World) : World :=
  mkWorld (users w) (cache w) b (demoMode w) (entropy w).

Definition tick (w : World) : World :=
  mkWorld (users w) (cache w) (passwordChangeRequest w) (demoMode w) (S (entropy w)).

(** ** Async functions that may throw *)

Inductive Result (A : Type) : Type :=
| Ok (a : A)
| Throw (e : Error).
Arguments Ok {A} a.
Arguments Throw {A} e.

Definition M (A : Type) : Type := World → Result A * World.

Definition ret {A : Type} (a : A) : M A := λ w, (Ok a, w).

Definition bind {A B : Type} (m : M A) (f : A → M B) : M B := λ w,
  match m w with
  | (Ok a, w') => f a w'
  | (Throw e, w') => (Throw e, w')
  end.

Notation "'const' x := 'await' m ; k" := (bind m (λ x, k))
  (at level 10, x name, m at level 100, k at level 200,
   format "'[v' 'const'  x  :=  'await'  m ; '/' k ']'").
Notation "'await' m ; k" := (bind m (λ _, k))
  (at level 10, m at level 100, k at level 200,
   format "'[v' 'await'  m ; '/' k ']'").

Definition throw {A : Type} (e : Error) : M A := λ w, (Throw e, w).

Definition gets {A : Type} (f : World → A) : M A := λ w, (Ok (f w), w).

Definition modify (f : World → World) : M unit := λ w, (Ok tt, f w).

(** [for (const x of xs) await f(x)] *)
Fixpoint forEach {A : Type} (f : A → M unit) (xs : list A) : M unit :=
  match xs with
  | [] => ret tt
  | x :: xs' => await f x; forEach f xs'
  end.

Definition failure {A : Type} (r : Result A) : option Error :=
  match r with
  | Ok _ => None
  | Throw e => Some e
  end.

(** ** JavaScript values *)

(** [!s] is false exactly for a string that is present and not empty. *)
Definition truthy (s : string) : bool :=
  match s with
  | EmptyString => false
  | String _ _ => true
  end.

Definition truthy_opt (o : option string) : bool :=
  match o with
  | Some s => truthy s
  | None => false
  end.

(** [n.toString()] for a row id: its decimal digits. *)
Definition toString (n : N) : string :=
  NilEmpty.string_of_uint (N.to_uint n).

(** [s.startsWith(p)] *)
Fixpoint startsWith (p s : string) : bool :=
  match p, s with
  | EmptyString, _ => true
  | String a p', String b s' => Ascii.eqb a b && startsWith p' s'
  | String _ _, EmptyString => false
  end.

(** [s.includes(':')] *)
Definition includes_colon (s : string) : bool :=
  existsb (Ascii.eqb ":"%char) (list_ascii_of_string s).

(** ** Cache keys *)

(** [`session:${sessionId}`] *)
Definition sessionKey (sessionId : string) : string :=
  "session:" +:+ sessionId.

(** [`session:${userId}:`] *)
Definition userSessionsPrefix (userId : N) : string :=
  "session:" +:+ toString userId +:+ ":".

(** [`session:${userId}:${sessionId}`], with the user id already a string *)
Definition trackingKeyOf (userId sessionId : string) : string :=
  "session:" +:+ userId +:+ ":" +:+ sessionId.

Definition trackingKey (userId : N) (sessionId : string) : string :=
  trackingKeyOf (toString userId) sessionId.

(** ** Collaborators imported by the service

    Libraries and helpers whose code is outside the service are taken as
    parameters.  Random generators are indexed by the draw counter of the
    world. *)

Class Collaborators : Type := {
  (* argon2.verify(hash, plain) *)
  argon2_verify : string → string → bool;
  (* argon2.hash(plain), with the salt it draws *)
  argon2_hash : nat → string → string;
  (* uuid.v4() *)
  uuidv4 : nat → string;
  (* generateSessionId(prefix) of session.helpers *)
  generateSessionId : nat → string → string;
  (* validator.isEmail(s) *)
  isEmail : string → bool;
  (* s.trim().toLowerCase() *)
  trim_toLowerCase : string → string;
  (* encrypt(data, salt) and decrypt(data, salt) of utils/encryption *)
  encrypt : string → string → string;
  decrypt : string → string → string;
  (* TotpAuthenticator.check(code, secret) at the time of the call *)
  TotpAuthenticator_check : string → string → bool;
  (* TotpAuthenticator.generateSecret() *)
  TotpAuthenticator_generateSecret : nat → string;
  (* TotpAuthenticator.keyuri(user, service, secret) *)
  TotpAuthenticator_keyuri : string → string → string → string;
  (* Number(s) when it is a row id, NaN and every other number as None *)
  Number : string → option N;
  (* Locales and getLocaleFromString of shared/internationalization *)
  Locales : list string;
  getLocaleFromString : option string → string;
  (* the value setSession keeps under the tracking key of a session *)
  trackingValue : string → string
}.

(** The caller of [login] receives one of two objects. *)
Inductive LoginResult : Type :=
| totpSessionId_of (totpSessionId : string)     (* { totpSessionId } *)
| sessionId_of (sessionId : string).            (* { sessionId } *)

(** The projection of a row returned by [me]: no credential in it. *)
Record UserDto : Type := mkDto {
  dto_id : N;
  dto_username : string;
  dto_totpEnabled : bool;
  dto_locale : string;
  dto_operator : bool
}.

Section Service.
Context `{Collaborators}.

(** One draw from the random source. *)
Definition draw : M nat := λ w, (Ok (entropy w), tick w).

(** *** AuthQueries *)

(** Modelled from the spec: [AuthQueries.getUserByUsername] is not among
    the sources; the user store returns the row with that username, or
    null when there is none. *)
Definition getUserByUsername (name : string) : M (option User.t) :=
  gets (λ w, List.find (λ u, String.eqb (User.username u) name) (users w)).

(** Modelled from the spec: [AuthQueries.getUserById] is not among the
    sources; the row with that id, or null. *)
Definition getUserById (userId : N) : M (option User.t) :=
  gets (λ w, List.find (λ u, N.eqb (User.id u) userId) (users w)).

(** [getUserById(Number(s))]: a number that is no row id finds no row. *)
Definition getUserByNumber (n : option N) : M (option User.t) :=
  match n with
  | Some userId => getUserById userId
  | None => ret None
  end.

Definition toDto (u : User.t) : UserDto :=
  mkDto (User.id u) (User.username u) (User.totpEnabled u) (User.locale u)
    (User.operator u).

(** Modelled from the spec: [AuthQueries.getUserDtoById] is not among the
    sources; a credential-stripped projection of the row, or null. *)
Definition getUserDtoById (userId : N) : M (option UserDto) :=
  const user := await getUserById userId;
  ret (toDto <$> user).

(** Modelled from the spec: [AuthQueries.getOperators] is not among the
    sources; the rows whose operator flag is set. *)
Definition getOperators : M (list User.t) :=
  gets (λ w, List.filter User.operator (users w)).

(** Modelled from the spec: [AuthQueries.getFirstOperator] is not among
    the sources; the first operator row, or null. *)
Definition getFirstOperator : M (option User.t) :=
  gets (λ w, List.find User.operator (users w)).

(** The id the store gives to the next row: above every id in use. *)
Definition nextId (rows : list User.t) : N :=
  N.succ (fold_right N.max 0%N (List.map User.id rows)).

(** Modelled from the spec: [AuthQueries.createUser] is not among the
    sources; it inserts a row with the given fields under a new id, the
    second factor not enrolled (no secret, no salt, totpEnabled false),
    and returns the row. *)
Definition createUser (username password : string) (operator : bool)
    (locale : string) : M (option User.t) :=
  λ w,
    let newUser :=
      User.mk (nextId (users w)) username password false None None locale operator in
    (Ok (Some newUser), with_users (λ rows, (rows ++ [newUser])%list) w).

(** What [updateUser] does to one row. *)
Definition updated (userId : N) (fields : list Field) (u : User.t) : User.t :=
  if N.eqb (User.id u) userId then patch u fields else u.

(** Modelled from the spec: [AuthQueries.updateUser] is not among the
    sources; it assigns the given fields in the row with that id. *)
Definition updateUser (userId : N) (fields : list Field) : M unit :=
  modify (with_users (List.map (updated userId fields))).

(** *** TipiCache

    Every client ([new TipiCache(label)], closed after use) reads and
    writes the one store; the label only names the client.  Expiry of
    entries is left out. *)

(** Modelled from the spec: [TipiCache.set] is not among the sources;
    [set(key, value)] writes the entry. *)
Definition cache_set (key value : string) : M unit :=
  modify (with_cache <[key := value]>).

(** Modelled from the spec: [TipiCache.get] is not among the sources;
    [get(key)] is one read, null when the key is absent. *)
Definition cache_get (key : string) : M (option string) :=
  gets (λ w, cache w !! key).

(** Modelled from the spec: [TipiCache.del] is not among the sources;
    [del(key)] deletes the entry, and does nothing when it is absent. *)
Definition cache_del (key : string) : M unit :=
  modify (with_cache (delete key)).

(** Modelled from the spec: [TipiCache.getByPrefix] is not among the
    sources; [getByPrefix(prefix)] lists the entries whose key starts with
    the prefix, as {key, val}. *)
Definition cache_getByPrefix (prefix : string) : M (list (string * string)) :=
  gets (λ w, map_to_list (filter (λ kv, startsWith prefix kv.1 = true) (cache w))).

(** *** fs.helpers on /runtipi/state/password-change-request *)

(** Modelled from the spec: [fileExists] is not among the sources; the
    marker is a single boolean, the existence of the file. *)
Definition fileExists : M bool := gets passwordChangeRequest.

(** Modelled from the spec: [unlinkFile] is not among the sources; it
    removes the marker file. *)
Definition unlinkFile : M unit := modify (with_passwordChangeRequest false).

(** *** session.helpers *)

(** Modelled from the spec: [setSession] is not among the sources; it
    writes the pair of a session, the primary entry session:<sessionId>
    with the user id and the tracking entry session:<userId>:<sessionId>.
    The spec gives the value of the tracking entry as the session id, while
    [destroyAllSessionsByUserId] hands the stored value to [cache.del] as a
    key; the stored value is the collaborator [trackingValue], and nothing
    proved of [setSession] depends on which of the two it is. *)
Definition setSession (sessionId userId : string) : M unit :=
  await cache_set (sessionKey sessionId) userId;
  cache_set (trackingKeyOf userId sessionId) (trackingValue sessionId).

(** *** AuthServiceClass *)

Definition login (username password : string) : M LoginResult :=
  const user := await getUserByUsername username;
  match user with
  | None => throw user_not_found
  | Some user =>
      let isPasswordValid := argon2_verify (User.password user) password in
      if negb isPasswordValid then throw invalid_credentials
      else if User.totpEnabled user then
        const r := await draw;
        let totpSessionId := generateSessionId r "otp" in
        await cache_set totpSessionId (toString (User.id user));
        ret (totpSessionId_of totpSessionId)
      else
        const r := await draw;
        let sessionId := uuidv4 r in
        await setSession sessionId (toString (User.id user));
        ret (sessionId_of sessionId)
  end.

Definition verifyTotp (totpSessionId totpCode : string) : M bool :=
  const userId := await cache_get totpSessionId;
  match userId with
  | None => throw totp_session_not_found
  | Some userId =>
      if negb (truthy userId) then throw totp_session_not_found
      else
        const user := await getUserByNumber (Number userId);
        match user with
        | None => throw user_not_found
        | Some user =>
            if negb (User.totpEnabled user)
               || negb (truthy_opt (User.totpSecret user))
               || negb (truthy_opt (User.salt user))
            then throw totp_not_enabled
            else
              let totpSecret :=
                decrypt (default "" (User.totpSecret user))
                        (default "" (User.salt user)) in
              let isValid := TotpAuthenticator_check totpCode totpSecret in
              if negb isValid then throw totp_invalid_code
              else
                const r := await draw;
                let sessionId := uuidv4 r in
                await setSession sessionId (toString (User.id user));
                ret true
        end
  end.

Definition getTotpUri (userId : N) (password : string) : M (string * string) :=
  const demo := await gets demoMode;
  if demo then throw not_allowed_in_demo
  else
    const user := await getUserById userId;
    match user with
    | None => throw user_not_found
    | Some user =>
        let isPasswordValid := argon2_verify (User.password user) password in
        if negb isPasswordValid then throw invalid_password
        else if User.totpEnabled user then throw totp_already_enabled
        else
          const r := await draw;
          let newTotpSecret := TotpAuthenticator_generateSecret r in
          const salt := await
                 (if negb (truthy_opt (User.salt user))
                  then const r' := await draw; ret (generateSessionId r' "")
                  else ret (default "" (User.salt user)));
          let encryptedTotpSecret := encrypt newTotpSecret salt in
          await updateUser userId [set_totpSecret (Some encryptedTotpSecret); set_salt salt];
          let uri := TotpAuthenticator_keyuri (User.username user) "Runtipi" newTotpSecret in
          ret (uri, newTotpSecret)
    end.

Definition setupTotp (userId : N) (totpCode : string) : M bool :=
  const demo := await gets demoMode;
  if demo then throw not_allowed_in_demo
  else
    const user := await getUserById userId;
    match user with
    | None => throw user_not_found
    | Some user =>
        if User.totpEnabled user
           || negb (truthy_opt (User.totpSecret user))
           || negb (truthy_opt (User.salt user))
        then throw totp_already_enabled
        else
          let totpSecret :=
            decrypt (default "" (User.totpSecret user))
                    (default "" (User.salt user)) in
          let isValid := TotpAuthenticator_check totpCode totpSecret in
          if negb isValid then throw totp_invalid_code
          else
            await updateUser userId [set_totpEnabled true];
            ret true
    end.

Definition disableTotp (userId : N) (password : string) : M bool :=
  const user := await getUserById userId;
  match user with
  | None => throw user_not_found
  | Some user =>
      if negb (User.totpEnabled user) then throw totp_not_enabled
      else
        let isPasswordValid := argon2_verify (User.password user) password in
        if negb isPasswordValid then throw invalid_password
        else
          await updateUser userId [set_totpEnabled false; set_totpSecret None];
          ret true
  end.

Definition register (username password : string) (locale : option string) : M bool :=
  const operators := await getOperators;
  if Nat.ltb 0 (List.length operators) then throw admin_already_exists
  else
    let email := trim_toLowerCase username in
    if negb (truthy username) || negb (truthy password)
    then throw missing_email_or_password
    else if Nat.ltb (String.length username) 3 || negb (isEmail email)
    then throw invalid_username
    else
      const user := await getUserByUsername email;
      match user with
      | Some _ => throw user_already_exists
      | None =>
          const r := await draw;
          let hash := argon2_hash r password in
          const newUser := await createUser email hash true (getLocaleFromString locale);
          match newUser with
          | None => throw error_creating_user
          | Some newUser =>
              const r' := await draw;
              let sessionId := uuidv4 r' in
              await setSession sessionId (toString (User.id newUser));
              ret true
          end
      end.

(** [userId] is [number | undefined]; 0 is falsy as well. *)
Definition me (userId : option N) : M (option UserDto) :=
  match userId with
  | None => ret None
  | Some 0%N => ret None
  | Some userId => getUserDtoById userId
  end.

Definition logout (sessionId : string) : M bool :=
  await cache_del (sessionKey sessionId);
  ret true.

Definition isConfigured : M bool :=
  const operators := await getOperators;
  ret (Nat.ltb 0 (List.length operators)).

Definition checkPasswordChangeRequest : M bool :=
  const present := await fileExists;
  if present then ret true else ret false.

Definition changeOperatorPassword (newPassword : string) : M string :=
  const pending := await checkPasswordChangeRequest;
  if negb pending then throw no_change_password_request
  else
    const user := await getFirstOperator;
    match user with
    | None => throw operator_not_found
    | Some user =>
        const r := await draw;
        let hash := argon2_hash r newPassword in
        await updateUser (User.id user)
          [set_password hash; set_totpEnabled false; set_totpSecret None];
        await unlinkFile;
        ret (User.username user)          (* { email: user.username } *)
    end.

Definition cancelPasswordChangeRequest : M bool :=
  const present := await fileExists;
  await (if present then unlinkFile else ret tt);
  ret true.

(** The callbacks of [Promise.all(sessions.map(...))] only delete keys;
    deletions commute, so they are run one entry after the other. *)
Definition destroyAllSessionsByUserId (userId : N) : M unit :=
  const sessions := await cache_getByPrefix (userSessionsPrefix userId);
  forEach (λ session : string * string,
             await cache_del session.1;
             if truthy session.2 then cache_del session.2 else ret tt)
          sessions.

(** The cache once the callbacks have run over [sessions]. *)
Definition swept (sessions : list (string * string)) (c : gmap string string) :
    gmap string string :=
  fold_left
    (λ c session,
       let c := delete session.1 c in
       if truthy session.2 then delete session.2 c else c)
    sessions c.

Definition changePassword (currentPassword newPassword : string) (userId : N) : M bool :=
  const demo := await gets demoMode;
  if demo then throw not_allowed_in_demo
  else
    const user := await getUserById userId;
    match user with
    | None => throw user_not_found
    | Some user =>
        let valid := argon2_verify (User.password user) currentPassword in
        if negb valid then throw invalid_password
        else if Nat.ltb (String.length newPassword) 8 then throw invalid_password_length
        else
          const r := await draw;
          let hash := argon2_hash r newPassword in
          await updateUser (User.id user) [set_password hash];
          await destroyAllSessionsByUserId (User.id user);
          ret true
    end.

Definition changeUsername (newUsername password : string) (userId : N) : M bool :=
  const demo := await gets demoMode;
  if demo then throw not_allowed_in_demo
  else
    const user := await getUserById userId;
    match user with
    | None => throw user_not_found
    | Some user =>
        let valid := argon2_verify (User.password user) password in
        if negb valid then throw invalid_password
        else
          let email := trim_toLowerCase newUsername in
          if negb (isEmail email) then throw invalid_username
          else
            const existingUser := await getUserByUsername email;
            match existingUser with
            | Some _ => throw user_already_exists
            | None =>
                await updateUser (User.id user) [set_username email];
                await destroyAllSessionsByUserId (User.id user);
                ret true
            end
    end.

Definition changeLocale (locale : string) (userId : N) : M bool :=
  let isLocaleValid := bool_decide (locale ∈ Locales) in
  if negb isLocaleValid then throw invalid_locale
  else
    const user := await getUserById userId;
    match user with
    | None => throw user_not_found
    | Some user =>
        await updateUser (User.id user) [set_locale locale];
        ret true
    end.

(** *** Requests to the service *)

Inductive Request : Type :=
| Login (username password : string)
| VerifyTotp (totpSessionId totpCode : string)
| GetTotpUri (userId : N) (password : string)
| SetupTotp (userId : N) (totpCode : string)
| DisableTotp (userId : N) (password : string)
| Register (username password : string) (locale : option string)
| Me (userId : option N)
| Logout (sessionId : string)
| IsConfigured
| ChangeOperatorPassword (newPassword : string)
| CheckPasswordChangeRequest
| CancelPasswordChangeRequest
| ChangePassword (currentPassword newPassword : string) (userId : N)
| ChangeUsername (newUsername password : string) (userId : N)
| ChangeLocale (locale : string) (userId : N).

(** The error of a call, if it threw, and the world it leaves. *)
Definition outcome {A : Type} (m : M A) (w : World) : option Error * World :=
  (failure (m w).1, (m w).2).

Definition serve (rq : Request) : World → option Error * World :=
  match rq with
  | Login u p => outcome (login u p)
  | VerifyTotp s c => outcome (verifyTotp s c)
  | GetTotpUri i p => outcome (getTotpUri i p)
  | SetupTotp i c => outcome (setupTotp i c)
  | DisableTotp i p => outcome (disableTotp i p)
  | Register u p l => outcome (register u p l)
  | Me i => outcome (me i)
  | Logout s => outcome (logout s)
  | IsConfigured => outcome isConfigured
  | ChangeOperatorPassword p => outcome (changeOperatorPassword p)
  | CheckPasswordChangeRequest => outcome checkPasswordChangeRequest
  | CancelPasswordChangeRequest => outcome cancelPasswordChangeRequest
  | ChangePassword c n i => outcome (changePassword c n i)
  | ChangeUsername n p i => outcome (changeUsername n p i)
  | ChangeLocale l i => outcome (changeLocale l i)
  end.


(** Worlds that arise from an empty user table: requests to the service,
    and anything else that leaves the user table alone (the marker file
    being created, cache entries expiring, the configuration changing). *)
Inductive reachable : World → Prop :=
| reachable_init w : users w = [] → reachable w
| reachable_serve rq w : reachable w → reachable (serve rq w).2
| reachable_outside w w' : reachable w → users w' = users w → reachable w'.

(** totpEnabled implies that totpSecret and salt are not null. *)
Definition totp_consistent (u : User.t) : Prop :=
  User.totpEnabled u = true → User.totpSecret u ≠ None ∧ User.salt u ≠ None.

Definition totp_invariant (w : World) : Prop :=
  Forall totp_consistent (users w).

(** Modelled from the spec: the session store's [resolve] is not among the
    sources; [resolve(sessionId)] is the user id behind a session id, by one
    read of the primary entry, absent when there is none. *)
Definition resolve (sessionId : string) (w : World) : option string :=
  cache w !! sessionKey sessionId.

(** The value [verifyTotp] returns, read as a session id by [read], is
    the id of the session the call created: it resolves after the call
    and did not before. *)
Definition returns_new_session_id (read : bool → string) (w : World)
    (totpSessionId totpCode : string) : Prop :=
  ∃ r, (verifyTotp totpSessionId totpCode w).1 = Ok r
       ∧ resolve (read r) w = None
       ∧ resolve (read r) (verifyTotp totpSessionId totpCode w).2 ≠ None.

(** Every session entry of the user in [before] is absent in [after]:
    each entry under the user's tracking prefix, the entry its value
    names, and so the primary entry of a session whose tracking entry
    names it. *)
Definition sessions_revoked (userId : N) (before after : World) : Prop :=
  (∀ key value,
      cache before !! key = Some value →
      startsWith (userSessionsPrefix userId) key = true →
      cache after !! key = None
      ∧ (truthy value = true → cache after !! value = None))
  ∧ (∀ sessionId,
      cache before !! trackingKey userId sessionId = Some (sessionKey sessionId) →
      cache after !! trackingKey userId sessionId = None
      ∧ resolve sessionId after = None).

(** The requests that start with the demo-mode check. *)
Definition demo_gated (rq : Request) : bool :=
  match rq with
  | GetTotpUri _ _ | SetupTotp _ _ | ChangePassword _ _ _ | ChangeUsername _ _ _ =>
      true
  | _ => false
  end.

(** The same world under another setting of demo mode. *)
Definition with_demoMode (b : bool) (w : World) : World :=
  mkWorld (users w) (cache w) (passwordChangeRequest w) b (entropy w).

End Service.

(** ** Concrete collaborators, to run the service on examples *)

Module Demo.

Definition contains_at (s : string) : bool :=
  existsb (Ascii.eqb "@"%char) (list_ascii_of_string s).

Definition parseId (s : string) : option N :=
  N.of_uint <$> NilEmpty.uint_of_string s.

Definition collaborators : Collaborators := {|
  argon2_verify h p := String.eqb h ("argon2:" +:+ p);
  argon2_hash _ p := "argon2:" +:+ p;
  uuidv4 r := "uuid" +:+ toString (N.of_nat r);
  generateSessionId r prefix := prefix +:+ "-uuid" +:+ toString (N.of_nat r);
  isEmail := contains_at;
  trim_toLowerCase s := s;
  encrypt data _ := data;
  decrypt data _ := data;
  TotpAuthenticator_check code _ := String.eqb code "123456";
  TotpAuthenticator_generateSecret _ := "JBSWY3DPEHPK3PXP";
  TotpAuthenticator_keyuri user service secret :=
    "otpauth://totp/" +:+ service +:+ ":" +:+ user +:+ "?secret=" +:+ secret;
  Number := parseId;
  Locales := ["en"; "fr"];
  getLocaleFromString l := default "en" l;
  trackingValue := sessionKey
|}.

(** The operator a@example.com, password Secr3t!!, no second factor. *)
Definition alice : User.t :=
  User.mk 1 "a@example.com" "argon2:Secr3t!!" false None None "en" true.

(** A second row, with the second factor enrolled. *)
Definition bob : User.t :=
  User.mk 2 "b@example.com" "argon2:hunter22" true (Some "JBSWY3DPEHPK3PXP")
    (Some "-uuid7") "en" false.

Definition empty : World := mkWorld [] ∅ false false 0.

Definition world : World := mkWorld [alice; bob] ∅ false false 0.

(** bob has passed the password step: a challenge is pending. *)
Definition challenged : World :=
  mkWorld [alice; bob] {[ "otp-uuid0" := "2" ]} false false 1.

(** alice holds the sessions uuid0 and uuid1, bob the session uuid2. *)
Definition logged_in : World :=
  mkWorld [alice; bob]
    (list_to_map [
       ("session:uuid0", "1"); ("session:1:uuid0", "session:uuid0");
       ("session:uuid1", "1"); ("session:1:uuid1", "session:uuid1");
       ("session:uuid2", "2"); ("session:2:uuid2", "session:uuid2")])
    false false 3.

(** A third row in the middle of enrolment: secret and salt stored, the
    first code not yet confirmed. *)
Definition carol : User.t :=
  User.mk 3 "c@example.com" "argon2:correcthorse" false (Some "JBSWY3DPEHPK3PXP")
    (Some "-uuid9") "fr" false.

Definition enrolling : World := mkWorld [alice; bob; carol] ∅ false false 0.

(** The reset marker has been created on the host. *)
Definition reset_requested : World := mkWorld [alice; bob] ∅ true false 0.

End Demo.

(** ** TipiConfig (core/TipiConfig/TipiConfig.ts)

    The configuration object that the service asks for demo mode.  The
    instance keeps the parsed environment ([config]) and a copy of the
    parsed settings file with the time it was read; the host holds the
    settings file and the clock.  Logging and error reporting are left
    out. *)

Module TipiConfig.

(** Values of configuration fields. *)
Inductive Value : Type :=
| v_string (s : string)
| v_number (z : Z)
| v_boolean (b : bool).

(** Configuration objects, by field name. *)
Abbreviation Obj := (gmap string Value).

(** [{ ...a, ...b }] *)
Definition spread (a b : Obj) : Obj := b ∪ a.

(** [if (v)] for a field that may be missing. *)
Definition field_truthy (v : option Value) : bool :=
  match v with
  | Some (v_string s) => truthy s
  | Some (v_number z) => negb (Z.eqb z 0)
  | Some (v_boolean b) => b
  | None => false
  end.

(** [v === s] for a field that may be missing. *)
Definition field_is (s : string) (v : option Value) : bool :=
  match v with
  | Some (v_string s') => String.eqb s' s
  | _ => false
  end.

(** What the class is built on: the zod schemas of @runtipi/shared, JSON
    values as [readJsonFile] returns them, and the clock. *)
Class Platform : Type := {
  (* a parsed JSON value *)
  Raw : Type;
  (* an object seen as a JSON value; also what readJsonFile gives back for
     a file written with JSON.stringify of that object *)
  objRaw : Obj → Raw;
  (* settingsSchema.safeParse(x): the data on success *)
  settingsSchema_safeParse : Raw → option Obj;
  (* envSchema.safeParse(x); envSchema.parse(x) throws where this is None *)
  envSchema_safeParse : Raw → option Obj;
  (* envSchema.partial().safeParse(x), likewise for parse *)
  envSchema_partial_safeParse : Raw → option Obj;
  (* the value of the n-th call of Date.now() *)
  Date_now : nat → Z
}.

(** The fields of a [TipiConfigClass] instance. *)
Record t : Type := mk {
  config : Obj;
  fileConfigCache : option Obj;
  cacheTime : Z;
  cacheTimeout : Z
}.

(** What a method can throw. *)
Inductive Failure : Type :=
| demo_mode_error        (* Error('Cannot update settings in demo mode') *)
| zod_error.             (* ZodError, from a schema's parse *)

Section Class.
Context `{Platform}.

(** The instance with what it reads and writes: the content of
    /runtipi/state/settings.json as [readJsonFile] returns it (None when it
    returns a falsy value) and the number of clock reads so far. *)
Record Host : Type := mkHost {
  self : t;
  settings_json : option Raw;
  clock_reads : nat
}.

Definition with_self (f : t → t) (h : Host) : Host :=
  mkHost (f (self h)) (settings_json h) (clock_reads h).

Definition with_settings_json (raw : option Raw) (h : Host) : Host :=
  mkHost (self h) raw (clock_reads h).

(** [Date.now()] *)
Definition now (h : Host) : Z * Host :=
  (Date_now (clock_reads h), mkHost (self h) (settings_json h) (S (clock_reads h))).

(** [readJsonFile('/runtipi/state/settings.json') || {}] *)
Definition readSettings (h : Host) : Raw :=
  default (objRaw ∅) (settings_json h).

(** The else branch of [getFileConfig]: read the file, keep it when it
    parses. *)
Definition readFileConfig (h : Host) : Obj * Host :=
  match settingsSchema_safeParse (readSettings h) with
  | Some data =>
      let (time, h') := now h in
      (data,
       with_self (λ c, mk (config c) (Some data) time (cacheTimeout c)) h')
  | None => (∅, h)
  end.

Definition getFileConfig (h : Host) : Obj * Host :=
  let (time, h') := now h in
  match fileConfigCache (self h') with
  | Some cached =>
      if Z.ltb (time - cacheTime (self h')) (cacheTimeout (self h'))
      then (cached, h')
      else readFileConfig h'
  | None => readFileConfig h'
  end.

Definition resetCache (h : Host) : Host :=
  with_self (λ c, mk (config c) None 0 (cacheTimeout c)) h.

Definition getConfig (h : Host) : Obj * Host :=
  let (fileConfig, h') := getFileConfig h in
  let conf := spread (config (self h')) fileConfig in
  if field_is "test" (conf !! "NODE_ENV")
  then (conf, h')
  else (spread conf {[ "postgresPort" := v_number 5432 ]}, h').

(** The parse throws inside the try block; the catch returns {}. *)
Definition getSettings (h : Host) : Obj * Host :=
  let (fileConfig, h') := getFileConfig h in
  match settingsSchema_safeParse (objRaw (spread (config (self h')) fileConfig)) with
  | Some data => (data, h')
  | None => (∅, h')
  end.

Definition setConfig (key : string) (value : Value) (writeFile : bool)
    (h : Host) : (unit + Failure) * Host :=
  let (conf, h1) := getConfig h in
  let newConf := <[key := value]> conf in
  match envSchema_safeParse (objRaw newConf) with
  | None => (inr zod_error, h1)
  | Some parsedEnv =>
      let h2 := with_self (λ c, mk parsedEnv (fileConfigCache c) (cacheTime c)
                                   (cacheTimeout c)) h1 in
      if writeFile then
        match envSchema_partial_safeParse (readSettings h2) with
        | None => (inr zod_error, h2)
        | Some parsedConf =>
            match envSchema_partial_safeParse
                    (objRaw (<[key := value]> parsedConf)) with
            | None => (inr zod_error, h2)
            | Some parsed => (inl tt, with_settings_json (Some (objRaw parsed)) h2)
            end
        end
      else (inl tt, h2)
  end.

Definition setSettings (settings : Raw) (h : Host) : (unit + Failure) * Host :=
  if field_truthy (config (self h) !! "demoMode") then (inr demo_mode_error, h)
  else
    match settingsSchema_safeParse settings with
    | None => (inl tt, h)
    | Some data =>
        let h1 := with_settings_json (Some (objRaw data)) h in
        let h2 := resetCache h1 in
        let (conf, h3) := getConfig h2 in
        match envSchema_safeParse (objRaw (spread conf data)) with
        | None => (inr zod_error, h3)
        | Some parsedEnv =>
            (inl tt,
             with_self (λ c, mk parsedEnv (fileConfigCache c) (cacheTime c)
                                (cacheTimeout c)) h3)
        end
    end.

(** The cache is of no use at the next clock read: absent, or too old. *)
Definition stale (h : Host) : Prop :=
  ∀ cached, fileConfigCache (self h) = Some cached →
            (cacheTimeout (self h) ≤ Date_now (clock_reads h) - cacheTime (self h))%Z.

End Class.

End TipiConfig.

(** ** A concrete platform, to run TipiConfig on examples *)

Module ConfigDemo.
Import TipiConfig.

(** JSON values are objects; a settings object with a field named bad is
    refused by the settings schema; the clock advances by one second per
    read. *)
Definition platform : Platform := {|
  Raw := Obj;
  objRaw o := o;
  settingsSchema_safeParse o :=
    match o !! "bad" with Some _ => None | None => Some o end;
  envSchema_safeParse o := Some o;
  envSchema_partial_safeParse o := Some o;
  Date_now n := (1000 * Z.of_nat n)%Z
|}.

Definition env : Obj :=
  list_to_map [("NODE_ENV", v_string "production"); ("dnsIp", v_string "9.9.9.9");
               ("postgresPort", v_number 5433); ("demoMode", v_boolean false)].

Definition settings : Obj :=
  list_to_map [("dnsIp", v_string "1.1.1.1"); ("demoMode", v_boolean true)].

Definition edited : Obj :=
  list_to_map [("dnsIp", v_string "8.8.8.8")].

(** A new instance (timeout 5000) over a settings file. *)
Definition fresh : @Host platform :=
  @mkHost platform (mk env None 0 5000) (Some (@objRaw platform settings)) 0.

End ConfigDemo.

(** ** Properties of the service *)

Section Properties.
Context `{Collaborators}.

Ltac service :=
  unfold login, verifyTotp, getTotpUri, setupTotp, disableTotp, register, me,
    logout, isConfigured, changeOperatorPassword, checkPasswordChangeRequest,
    cancelPasswordChangeRequest, changePassword, changeUsername, changeLocale,
    setSession, getUserDtoById, getUserByNumber, getUserByUsername, getUserById,
    getOperators, getFirstOperator, createUser, updateUser, cache_set, cache_get,
    cache_del, fileExists, unlinkFile, draw, bind, ret, throw, gets, modify.

(** *** Strings and keys *)

Lemma append_length (a b : string) :
  String.length (a +:+ b) = String.length a + String.length b.
Proof. induction a as [|c a IH]; simpl; [reflexivity | now rewrite IH]. Qed.

Lemma startsWith_append (p s : string) : startsWith p (p +:+ s) = true.
Proof.
  induction p as [|c p IH]; simpl; [reflexivity |].
  now rewrite Ascii.eqb_refl, IH.
Qed.

Lemma trackingKey_prefix (userId : N) (sessionId : string) :
  startsWith (userSessionsPrefix userId) (trackingKey userId sessionId) = true.
Proof.
  unfold userSessionsPrefix, trackingKey, trackingKeyOf. simpl.
  change (startsWith (toString userId +:+ ":") (toString userId +:+ ":" +:+ sessionId) = true).
  generalize (toString userId) as u. intros u.
  induction u as [|c u IH]; simpl; [reflexivity|].
  now rewrite Ascii.eqb_refl, IH.
Qed.

Lemma trackingKeyOf_neq_sessionKey (userId sessionId : string) :
  trackingKeyOf userId sessionId ≠ sessionKey sessionId.
Proof.
  intros E. apply (f_equal String.length) in E.
  unfold trackingKeyOf, sessionKey in E. simpl in E.
  rewrite !append_length in E. simpl in E. lia.
Qed.

(** *** C2 *)

(** C2: when the password matches, [login] for a user without the second
    factor returns a session id and touches only the two entries of that
    session (no challenge is written); for a user with the second factor
    it returns a challenge id that the cache maps to the user's id, and
    touches no other entry (no session is written). *)
Theorem login_session_or_challenge (w : World) (username password : string)
    (user : User.t) :
  (getUserByUsername username w).1 = Ok (Some user) →
  argon2_verify (User.password user) password = true →
  let after := login username password w in
  (User.totpEnabled user = false →
     let sessionId := uuidv4 (entropy w) in
     after.1 = Ok (sessionId_of sessionId)
     ∧ resolve sessionId after.2 = Some (toString (User.id user))
     ∧ is_Some (cache after.2 !! trackingKey (User.id user) sessionId)
     ∧ ∀ key, key ≠ sessionKey sessionId →
              key ≠ trackingKey (User.id user) sessionId →
              cache after.2 !! key = cache w !! key)
  ∧ (User.totpEnabled user = true →
     let totpSessionId := generateSessionId (entropy w) "otp" in
     after.1 = Ok (totpSessionId_of totpSessionId)
     ∧ cache after.2 !! totpSessionId = Some (toString (User.id user))
     ∧ ∀ key, key ≠ totpSessionId → cache after.2 !! key = cache w !! key).
Proof.
  intros Hfind Hpw. simpl.
  unfold getUserByUsername, gets in Hfind. simpl in Hfind.
  injection Hfind as Hfind.
  split; intros Htotp.
  - service. rewrite Hfind, Hpw, Htotp. simpl. unfold resolve. simpl.
    repeat split.
    + rewrite lookup_insert_ne by apply trackingKeyOf_neq_sessionKey.
      apply lookup_insert_eq.
    + unfold trackingKey. rewrite lookup_insert_eq. eauto.
    + intros key H1 H2. unfold trackingKey in H2.
      rewrite !lookup_insert_ne by congruence. reflexivity.
  - service. rewrite Hfind, Hpw, Htotp. simpl.
    repeat split.
    + apply lookup_insert_eq.
    + intros key Hk. rewrite lookup_insert_ne by congruence. reflexivity.
Qed.

Lemma sessionKey_prefix (sessionId : string) :
  startsWith "session:" (sessionKey sessionId) = true.
Proof. apply startsWith_append. Qed.

Lemma trackingKeyOf_prefix (userId sessionId : string) :
  startsWith "session:" (trackingKeyOf userId sessionId) = true.
Proof. apply startsWith_append. Qed.

(** *** Rows under [updateUser] *)

Lemma assign_id (u : User.t) (f : Field) : User.id (assign u f) = User.id u.
Proof. now destruct f. Qed.

Lemma assign_operator (u : User.t) (f : Field) :
  User.operator (assign u f) = User.operator u.
Proof. now destruct f. Qed.

Lemma patch_id (fields : list Field) (u : User.t) :
  User.id (patch u fields) = User.id u.
Proof.
  unfold patch. revert u.
  induction fields as [|f fields IH]; intros u; simpl; [reflexivity|].
  now rewrite IH, assign_id.
Qed.

Lemma patch_operator (fields : list Field) (u : User.t) :
  User.operator (patch u fields) = User.operator u.
Proof.
  unfold patch. revert u.
  induction fields as [|f fields IH]; intros u; simpl; [reflexivity|].
  now rewrite IH, assign_operator.
Qed.

Lemma updated_id userId fields u : User.id (updated userId fields u) = User.id u.
Proof. unfold updated. destruct (N.eqb _ _); [apply patch_id | reflexivity]. Qed.

Lemma updated_operator userId fields u :
  User.operator (updated userId fields u) = User.operator u.
Proof. unfold updated. destruct (N.eqb _ _); [apply patch_operator | reflexivity]. Qed.

Lemma find_map_stable {A : Type} (p : A → bool) (f : A → A) (l : list A) :
  (∀ x, p (f x) = p x) →
  List.find p (List.map f l) = f <$> List.find p l.
Proof.
  intros Hp. induction l as [|x l IH]; simpl; [reflexivity|].
  rewrite Hp. destruct (p x); [reflexivity | exact IH].
Qed.

Lemma find_id_eq (userId : N) (l : list User.t) (u : User.t) :
  List.find (λ u, N.eqb (User.id u) userId) l = Some u → User.id u = userId.
Proof. intros Hf. apply find_some in Hf as [_ Hf]. now apply N.eqb_eq. Qed.

Lemma getUserByNumber_reads (n : option N) (w : World) :
  ∃ row, getUserByNumber n w = (Ok row, w).
Proof. destruct n; simpl; eexists; reflexivity. Qed.

(** *** The session of [verifyTotp] *)

(** X27: for a challenge id that resolves to a user with the second factor
    enabled, and a code valid for the decrypted seed, [verifyTotp] writes
    the pair of a session for that user under a newly drawn session id (the
    primary entry maps the id to the user id, the tracking entry is
    written), and the value it hands back is [true]. *)
Theorem verifyTotp_issues_session (w : World) (totpSessionId totpCode : string)
    (userId : string) (user : User.t) (secret salt : string) :
  cache w !! totpSessionId = Some userId →
  truthy userId = true →
  (getUserByNumber (Number userId) w).1 = Ok (Some user) →
  User.totpEnabled user = true →
  User.totpSecret user = Some secret → truthy secret = true →
  User.salt user = Some salt → truthy salt = true →
  TotpAuthenticator_check totpCode (decrypt secret salt) = true →
  let after := verifyTotp totpSessionId totpCode w in
  let sessionId := uuidv4 (entropy w) in
  after.1 = Ok true
  ∧ resolve sessionId after.2 = Some (toString (User.id user))
  ∧ cache after.2 !! trackingKey (User.id user) sessionId
    = Some (trackingValue sessionId).
Proof.
  intros Hc Ht Hu He Hs Hst Hsalt Hsaltt Hcode. simpl.
  unfold verifyTotp, bind, cache_get, gets. simpl. rewrite Hc, Ht. simpl.
  destruct (getUserByNumber_reads (Number userId) w) as [row Hq].
  rewrite Hq in Hu |- *. simpl in Hu. injection Hu as ->.
  rewrite He, Hs, Hsalt. simpl. rewrite Hst, Hsaltt, Hcode. simpl.
  service. simpl. unfold resolve, trackingKey. simpl.
  repeat split.
  - rewrite lookup_insert_ne by apply trackingKeyOf_neq_sessionKey.
    apply lookup_insert_eq.
  - apply lookup_insert_eq.
Qed.

(** *** C1 *)

(** C1 (amended): [verifyTotp] never removes the challenge.  For a
    challenge id present in the cache (outside the session: keys), the
    entry is still there after the call, whether the code was valid or
    not; a call that throws leaves the whole world as it was; and a
    second call with the same challenge id does not fail with
    totp-session-not-found. *)
Theorem verifyTotp_keeps_challenge (w : World)
    (totpSessionId totpCode totpCode' userId : string) :
  cache w !! totpSessionId = Some userId →
  truthy userId = true →
  startsWith "session:" totpSessionId = false →
  let after := verifyTotp totpSessionId totpCode w in
  cache after.2 !! totpSessionId = Some userId
  ∧ (after.1 ≠ Ok true → after.2 = w)
  ∧ (verifyTotp totpSessionId totpCode' after.2).1 ≠ Throw totp_session_not_found.
Proof.
  intros Hc Ht Hp. simpl.
  assert (Hkeep : cache (verifyTotp totpSessionId totpCode w).2 !! totpSessionId
                  = Some userId
                ∧ ((verifyTotp totpSessionId totpCode w).1 ≠ Ok true →
                   (verifyTotp totpSessionId totpCode w).2 = w)).
  { unfold verifyTotp, bind, cache_get, gets. simpl. rewrite Hc, Ht. simpl.
    destruct (getUserByNumber_reads (Number userId) w) as [[user|] ->]; simpl;
      [|now split].
    destruct (negb (User.totpEnabled user) || negb (truthy_opt (User.totpSecret user))
              || negb (truthy_opt (User.salt user))); simpl; [now split|].
    destruct (negb (TotpAuthenticator_check totpCode _)); simpl; [now split|].
    service. simpl. split; [|congruence].
    rewrite !lookup_insert_ne; [exact Hc | |].
    - intros E. rewrite <- E, sessionKey_prefix in Hp. discriminate.
    - intros E. rewrite <- E, trackingKeyOf_prefix in Hp. discriminate. }
  destruct Hkeep as [Hkeep Hsame].
  repeat split; [exact Hkeep | exact Hsame |].
  set (w1 := (verifyTotp totpSessionId totpCode w).2) in *.
  unfold verifyTotp, bind, cache_get, gets. simpl. rewrite Hkeep, Ht. simpl.
  destruct (getUserByNumber_reads (Number userId) w1) as [[user|] ->]; simpl;
    [|discriminate].
  destruct (negb (User.totpEnabled user) || negb (truthy_opt (User.totpSecret user))
            || negb (truthy_opt (User.salt user))); simpl; [discriminate|].
  destruct (negb (TotpAuthenticator_check totpCode' _)); simpl; [discriminate|].
  service. simpl. discriminate.
Qed.

(** *** The sweep of [destroyAllSessionsByUserId] *)

Lemma swept_absent (sessions : list (string * string)) (c : gmap string string)
    (key : string) :
  c !! key = None → swept sessions c !! key = None.
Proof.
  revert c. induction sessions as [|[k v] sessions IH]; intros c Hc; simpl;
    [exact Hc|].
  apply IH. destruct (truthy v); rewrite ?lookup_delete_None; auto.
Qed.

Lemma swept_key (sessions : list (string * string)) (c : gmap string string)
    (k v : string) :
  (k, v) ∈ sessions → swept sessions c !! k = None.
Proof.
  revert c. induction sessions as [|[k' v'] sessions IH]; intros c Hin; simpl.
  - inversion Hin.
  - apply elem_of_cons in Hin as [E | Hin]; [|now apply IH].
    injection E as <- <-. apply swept_absent.
    destruct (truthy v); rewrite ?lookup_delete_None; auto.
Qed.

Lemma swept_value (sessions : list (string * string)) (c : gmap string string)
    (k v : string) :
  (k, v) ∈ sessions → truthy v = true → swept sessions c !! v = None.
Proof.
  revert c. induction sessions as [|[k' v'] sessions IH]; intros c Hin Hv; simpl.
  - inversion Hin.
  - apply elem_of_cons in Hin as [E | Hin]; [|now apply IH].
    injection E as <- <-. apply swept_absent.
    rewrite Hv. apply lookup_delete_eq.
Qed.

Lemma swept_other (sessions : list (string * string)) (c : gmap string string)
    (key : string) :
  (∀ k v, (k, v) ∈ sessions → key ≠ k ∧ (truthy v = true → key ≠ v)) →
  swept sessions c !! key = c !! key.
Proof.
  revert c. induction sessions as [|[k v] sessions IH]; intros c Hout; simpl;
    [reflexivity|].
  rewrite IH by (intros k' v' Hin; apply Hout; now right).
  destruct (Hout k v ltac:(left)) as [Hk Hv].
  destruct (truthy v).
  - specialize (Hv eq_refl). rewrite !lookup_delete_ne by congruence. reflexivity.
  - rewrite lookup_delete_ne by congruence. reflexivity.
Qed.

Lemma forEach_swept (sessions : list (string * string)) (w : World) :
  forEach (λ session : string * string,
             await cache_del session.1;
             if truthy session.2 then cache_del session.2 else ret tt)
          sessions w
  = (Ok tt, with_cache (swept sessions) w).
Proof.
  revert w. induction sessions as [|[k v] sessions IH]; intros w; simpl.
  - unfold ret. now destruct w.
  - unfold bind at 1. unfold bind at 1. unfold cache_del at 1, modify. simpl.
    destruct (truthy v) eqn:Hv; unfold cache_del, modify, ret; rewrite IH;
      unfold with_cache; simpl; rewrite Hv; reflexivity.
Qed.

Lemma destroyAllSessionsByUserId_run (userId : N) (w : World) :
  destroyAllSessionsByUserId userId w
  = (Ok tt,
     with_cache
       (swept (map_to_list
                 (filter (λ kv, startsWith (userSessionsPrefix userId) kv.1 = true)
                         (cache w))))
       w).
Proof.
  unfold destroyAllSessionsByUserId, bind, cache_getByPrefix, gets. simpl.
  apply forEach_swept.
Qed.

Lemma swept_sessions_revoked (userId : N) (before after : World) :
  cache after
  = swept (map_to_list
             (filter (λ kv, startsWith (userSessionsPrefix userId) kv.1 = true)
                     (cache before)))
          (cache before) →
  sessions_revoked userId before after.
Proof.
  intros Hafter.
  assert (Hrows : ∀ key value,
             cache before !! key = Some value →
             startsWith (userSessionsPrefix userId) key = true →
             cache after !! key = None
             ∧ (truthy value = true → cache after !! value = None)).
  { intros key value Hk Hp.
    assert (Hin : (key, value) ∈
              map_to_list
                (filter (λ kv, startsWith (userSessionsPrefix userId) kv.1 = true)
                        (cache before))).
    { apply elem_of_map_to_list, map_lookup_filter_Some. now split. }
    rewrite Hafter. split.
    - eapply swept_key, Hin.
    - intros Hv. eapply swept_value; [exact Hin | exact Hv]. }
  split; [exact Hrows|].
  intros sessionId Hk.
  destruct (Hrows _ _ Hk (trackingKey_prefix userId sessionId)) as [Hgone Hval].
  split; [exact Hgone | apply Hval; reflexivity].
Qed.

(** *** What the sweep revokes *)

(** X26: a [changePassword] or [changeUsername] call that succeeds deletes
    every tracking entry session:<userId>:... together with the entry its
    value names; so a session whose tracking entry is still in the cache
    and names its primary entry resolves to absent afterwards. *)
Theorem credential_change_revokes_sessions (w : World) (userId : N)
    (currentPassword newPassword newUsername password : string) :
  ((changePassword currentPassword newPassword userId w).1 = Ok true →
     sessions_revoked userId w (changePassword currentPassword newPassword userId w).2)
  ∧ ((changeUsername newUsername password userId w).1 = Ok true →
     sessions_revoked userId w (changeUsername newUsername password userId w).2).
Proof.
  split.
  - unfold changePassword, bind, gets, getUserById, throw. simpl.
    destruct (demoMode w); simpl; [discriminate|].
    destruct (List.find _ (users w)) as [user|] eqn:Hfind; simpl; [|discriminate].
    destruct (negb (argon2_verify _ _)); simpl; [discriminate|].
    destruct (Nat.ltb _ 8); simpl; [discriminate|].
    rewrite destroyAllSessionsByUserId_run. simpl. intros _.
    apply swept_sessions_revoked. simpl.
    now rewrite (find_id_eq _ _ _ Hfind).
  - unfold changeUsername, bind, gets, getUserById, getUserByUsername, throw. simpl.
    destruct (demoMode w); simpl; [discriminate|].
    destruct (List.find _ (users w)) as [user|] eqn:Hfind; simpl; [|discriminate].
    destruct (negb (argon2_verify _ _)); simpl; [discriminate|].
    destruct (negb (isEmail _)); simpl; [discriminate|].
    destruct (List.find (λ u, String.eqb _ _) (users w)) as [other|]; simpl;
      [discriminate|].
    rewrite destroyAllSessionsByUserId_run. simpl. intros _.
    apply swept_sessions_revoked. simpl.
    now rewrite (find_id_eq _ _ _ Hfind).
Qed.

(** *** Case analysis over the requests *)

Ltac branch :=
  match goal with
  | |- context [destroyAllSessionsByUserId ?u ?w] =>
      rewrite (destroyAllSessionsByUserId_run u w)
  | |- context [match ?x with _ => _ end] =>
      lazymatch x with
      | context [match _ with _ => _ end] => fail
      | _ => destruct x eqn:?
      end
  end.

Ltac branches := service; simpl; repeat (branch; simpl).

(** Closes a case whose hypotheses contradict each other. *)
Ltac excluded :=
  intros;
  repeat match goal with
         | Hc : _ ∧ _ |- _ => destruct Hc
         | Hc : ∃ _, _ |- _ => destruct Hc
         end;
  simplify_eq; solve [discriminate | congruence | lia].

Lemma failure_leaves_world (rq : Request) (w : World) (e : Error) :
  (serve rq w).1 = Some e → (serve rq w).2 = w.
Proof.
  destruct rq; unfold serve, outcome; branches;
    solve [discriminate | reflexivity].
Qed.

(** *** The user table under a request *)

Lemma operators_updated (userId : N) (fields : list Field) (rows : list User.t) :
  List.length (List.filter User.operator (List.map (updated userId fields) rows))
  = List.length (List.filter User.operator rows).
Proof.
  induction rows as [|u rows IH]; simpl; [reflexivity|].
  rewrite updated_operator. destruct (User.operator u); simpl; now rewrite IH.
Qed.

Lemma operators_step (rq : Request) (w : World) :
  (List.length (List.filter User.operator (users w)) ≤ 1)%nat →
  (List.length (List.filter User.operator (users (serve rq w).2)) ≤ 1)%nat.
Proof.
  intros Hle.
  destruct rq; unfold serve, outcome; branches;
    rewrite ?operators_updated; try exact Hle.
  rewrite List.filter_app, List.length_app. simpl.
  match goal with Hb : Nat.ltb 0 _ = false |- _ => apply Nat.ltb_ge in Hb end.
  lia.
Qed.

Lemma ids_updated (userId : N) (fields : list Field) (rows : list User.t) :
  List.map User.id (List.map (updated userId fields) rows) = List.map User.id rows.
Proof.
  induction rows as [|u rows IH]; simpl; [reflexivity|].
  now rewrite updated_id, IH.
Qed.

Lemma nextId_above (rows : list User.t) (u : User.t) :
  In u rows → (User.id u < nextId rows)%N.
Proof.
  unfold nextId. induction rows as [|x rows IH]; simpl; [tauto|].
  intros [-> | Hin]; [lia|]. specialize (IH Hin). lia.
Qed.

Lemma ids_step (rq : Request) (w : World) :
  NoDup (List.map User.id (users w)) →
  NoDup (List.map User.id (users (serve rq w).2)).
Proof.
  intros Hnd.
  destruct rq; unfold serve, outcome; branches;
    rewrite ?ids_updated; try exact Hnd.
  rewrite List.map_app. simpl.
  apply NoDup_app. split; [exact Hnd|]. split; [|apply NoDup_singleton].
  intros i Hi Hnew. apply list_elem_of_In, in_map_iff in Hi as [u [<- Hu]].
  apply list_elem_of_In in Hnew. destruct Hnew as [Hnew | []].
  apply nextId_above in Hu. lia.
Qed.

(** With ids as a primary key, [updateUser] with the id of a row of the
    table changes that row only. *)
Lemma Forall_updated (P : User.t → Prop) (fields : list Field)
    (rows : list User.t) (user : User.t) :
  NoDup (List.map User.id rows) →
  In user rows →
  Forall P rows →
  (P user → P (patch user fields)) →
  Forall P (List.map (updated (User.id user) fields) rows).
Proof.
  intros Hnd Hin Hall Hp.
  apply Forall_forall. intros x Hx.
  apply list_elem_of_In, in_map_iff in Hx as [y [<- Hy]].
  assert (Py : P y).
  { eapply (proj1 (Forall_forall P rows)); [exact Hall|].
    now apply list_elem_of_In. }
  unfold updated. destruct (N.eqb (User.id y) (User.id user)) eqn:E; [|exact Py].
  apply N.eqb_eq in E.
  assert (y = user) as ->; [|now apply Hp].
  clear - Hnd Hin Hy E. induction rows as [|z rows IH]; simpl in *; [tauto|].
  inversion Hnd as [|? ? Hz Hrest]; subst.
  destruct Hy as [-> | Hy], Hin as [-> | Hin]; auto.
  - exfalso. apply Hz, list_elem_of_In, in_map_iff. eauto.
  - exfalso. apply Hz, list_elem_of_In, in_map_iff. eauto.
Qed.

Lemma totp_step (rq : Request) (w : World) :
  NoDup (List.map User.id (users w)) →
  totp_invariant w →
  totp_invariant (serve rq w).2.
Proof.
  unfold totp_invariant. intros Hnd Hinv.
  destruct rq; unfold serve, outcome; branches; try exact Hinv.
  all: repeat match goal with
       | Hf : List.find (λ x, N.eqb (User.id x) ?i) _ = Some _ |- _ =>
           let Hin := fresh "Hin" in
           let Hid := fresh "Hid" in
           apply find_some in Hf as [Hin Hid]; apply N.eqb_eq in Hid;
           try subst i
       | Hf : List.find User.operator _ = Some _ |- _ =>
           let Hin := fresh "Hin" in
           apply find_some in Hf as [Hin _]
       end.
  all: try (apply Forall_updated; [exact Hnd | assumption | exact Hinv |]).
  all: try (apply Forall_app; split; [exact Hinv|];
            constructor; [intros ?; discriminate | constructor]).
  all: unfold totp_consistent, patch; simpl;
    repeat match goal with
           | Hb : _ || _ = false |- _ => apply orb_false_elim in Hb as [? ?]
           end;
    match goal with
    | |- context [User.totpSecret ?u] =>
        destruct (User.totpSecret u), (User.salt u); simpl in *;
        intuition congruence
    end.
Qed.

(** Both facts hold in every reachable world. *)
Lemma reachable_table (w : World) :
  reachable w → NoDup (List.map User.id (users w)) ∧ totp_invariant w.
Proof.
  unfold totp_invariant.
  induction 1 as [w Hempty | rq w _ [Hnd Hinv] | w w' _ [Hnd Hinv] Hsame].
  - rewrite Hempty. split; constructor.
  - split; [now apply ids_step | now apply totp_step].
  - now rewrite Hsame.
Qed.




(** *** C4 *)

(** C4: in every reachable world at most one row has operator = true,
    and whenever an operator row exists [register] throws
    admin-already-exists with the world untouched, whatever the username
    and password. *)
Theorem single_operator (w : World) (username password : string)
    (locale : option string) :
  reachable w →
  ∃ operators,
    (getOperators w).1 = Ok operators
    ∧ (List.length operators ≤ 1)%nat
    ∧ (operators ≠ [] →
       register username password locale w = (Throw admin_already_exists, w)).
Proof.
  intros Hreach. exists (List.filter User.operator (users w)).
  split; [reflexivity|]. split.
  - induction Hreach as [w Hempty | rq w _ IH | w w' _ IH Hsame].
    + rewrite Hempty. simpl. lia.
    + now apply operators_step.
    + now rewrite Hsame.
  - unfold register, getOperators, bind, gets, throw. simpl. intros Hops.
    destruct (List.filter User.operator (users w)); [congruence | reflexivity].
Qed.

(** *** C7 *)

(** C7: with row ids a primary key, every request preserves the invariant
    that totpEnabled implies totpSecret and salt are not null (and keeps
    the ids distinct); so a row whose totpSecret is null after a request
    has totpEnabled false, and [setupTotp] succeeds only for a row whose
    totpSecret and salt are present. *)
Theorem totp_invariant_preserved (rq : Request) (w : World) (userId : N)
    (totpCode : string) :
  NoDup (List.map User.id (users w)) →
  totp_invariant w →
  totp_invariant (serve rq w).2
  ∧ NoDup (List.map User.id (users (serve rq w).2))
  ∧ (∀ row, In row (users (serve rq w).2) →
            User.totpSecret row = None → User.totpEnabled row = false)
  ∧ ((setupTotp userId totpCode w).1 = Ok true →
     ∃ user, (getUserById userId w).1 = Ok (Some user)
             ∧ User.totpEnabled user = false
             ∧ truthy_opt (User.totpSecret user) = true
             ∧ truthy_opt (User.salt user) = true).
Proof.
  intros Hnd Hinv.
  assert (Hafter := totp_step rq w Hnd Hinv).
  split; [exact Hafter|]. split; [now apply ids_step|]. split.
  - intros row Hrow Hnull.
    assert (Hc : totp_consistent row).
    { eapply (proj1 (Forall_forall _ _)); [exact Hafter|].
      now apply list_elem_of_In. }
    destruct (User.totpEnabled row) eqn:Henabled; [|reflexivity].
    destruct (Hc Henabled) as [Hsecret _]. contradiction.
  - unfold setupTotp, getUserById, bind, gets, throw. simpl.
    destruct (demoMode w); simpl; [discriminate|].
    destruct (List.find _ (users w)) as [user|]; simpl; [|discriminate].
    destruct (User.totpEnabled user) eqn:He,
      (truthy_opt (User.totpSecret user)) eqn:Hs,
      (truthy_opt (User.salt user)) eqn:Hsalt; simpl; try discriminate.
    intros _. exists user. now rewrite Hs, Hsalt.
Qed.

(** *** C8 *)

(** C8: a request that throws leaves the world as it was.  In particular
    [changeUsername] to an address that a row already holds throws and
    changes nothing, neither the caller's row nor any session, and the
    error is user-already-exists once the checks before it have passed
    (demo mode off, caller found, password valid, address well formed). *)
Theorem failure_has_no_effect (rq : Request) (w : World)
    (newUsername password : string) (userId : N) (other : User.t) :
  (∀ e, (serve rq w).1 = Some e → (serve rq w).2 = w)
  ∧ ((getUserByUsername (trim_toLowerCase newUsername) w).1 = Ok (Some other) →
     (∃ e, changeUsername newUsername password userId w = (Throw e, w))
     ∧ (demoMode w = false →
        ∀ user, (getUserById userId w).1 = Ok (Some user) →
                argon2_verify (User.password user) password = true →
                isEmail (trim_toLowerCase newUsername) = true →
                changeUsername newUsername password userId w
                = (Throw user_already_exists, w))).
Proof.
  split; [intros e; apply failure_leaves_world|].
  unfold getUserByUsername, getUserById, gets. simpl. intros Hother.
  injection Hother as Hother. split.
  - unfold changeUsername, getUserByUsername, getUserById, bind, gets, throw. simpl.
    destruct (demoMode w); simpl; [eauto|].
    destruct (List.find (λ u, N.eqb _ _) (users w)) as [user|]; simpl; [|eauto].
    destruct (negb (argon2_verify _ _)); simpl; [eauto|].
    destruct (negb (isEmail _)); simpl; [eauto|].
    rewrite Hother. eauto.
  - intros Hdemo user Huser Hpw Hmail. injection Huser as Huser.
    unfold changeUsername, getUserByUsername, getUserById, bind, gets, throw. simpl.
    rewrite Hdemo. simpl. rewrite Huser. simpl. rewrite Hpw. simpl.
    rewrite Hmail. simpl. rewrite Hother. reflexivity.
Qed.

(** *** C5 *)

(** C5: [changeOperatorPassword] succeeds exactly when the marker file
    exists and an operator row exists; on success the operator row holds
    the new hash, totpEnabled false and totpSecret null, the marker file
    is gone, and a second call right after throws
    no-change-password-request. *)
Theorem changeOperatorPassword_consumes_request (w : World)
    (newPassword again : string) :
  let after := changeOperatorPassword newPassword w in
  (failure after.1 = None
   ↔ (checkPasswordChangeRequest w).1 = Ok true
     ∧ ∃ user, (getFirstOperator w).1 = Ok (Some user))
  ∧ (failure after.1 = None →
     ∃ user,
       (getFirstOperator w).1 = Ok (Some user)
       ∧ after.1 = Ok (User.username user)
       ∧ (∃ row, (getFirstOperator after.2).1 = Ok (Some row)
                 ∧ User.id row = User.id user
                 ∧ User.password row = argon2_hash (entropy w) newPassword
                 ∧ User.totpEnabled row = false
                 ∧ User.totpSecret row = None)
       ∧ passwordChangeRequest after.2 = false
       ∧ changeOperatorPassword again after.2
         = (Throw no_change_password_request, after.2)).
Proof.
  simpl.
  unfold changeOperatorPassword, checkPasswordChangeRequest, fileExists,
    getFirstOperator, updateUser, unlinkFile, draw, bind, gets, modify, ret, throw.
  simpl.
  destruct (passwordChangeRequest w) eqn:Hreq; simpl.
  - destruct (List.find User.operator (users w)) as [user|] eqn:Hop; simpl.
    + split; [split; eauto|]. intros _. exists user.
      repeat split.
      exists (patch user
                [set_password (argon2_hash (entropy w) newPassword);
                 set_totpEnabled false; set_totpSecret None]).
      rewrite find_map_stable by apply updated_operator.
      rewrite Hop. simpl. unfold updated. rewrite N.eqb_refl. now simpl.
    + split; [|discriminate]. split; [discriminate|].
      intros [_ [user Hu]]. discriminate.
  - split; [|discriminate]. split; [discriminate|].
    intros [Hm _]. discriminate.
Qed.

(** *** C9 *)

(** C9: [changePassword] succeeds exactly when demo mode is off, the user
    exists, the current password matches the stored hash and the new
    password has at least 8 characters, and then the stored hash is that
    of the new password; with a shorter new password and the other
    conditions met it throws invalid-password-length and the world, the
    stored hash included, is unchanged. *)
Theorem changePassword_preconditions (w : World)
    (currentPassword newPassword : string) (userId : N) :
  let after := changePassword currentPassword newPassword userId w in
  (failure after.1 = None
   ↔ demoMode w = false
     ∧ ∃ user, (getUserById userId w).1 = Ok (Some user)
               ∧ argon2_verify (User.password user) currentPassword = true
               ∧ (8 ≤ String.length newPassword)%nat)
  ∧ (failure after.1 = None →
     ∃ row, (getUserById userId after.2).1 = Ok (Some row)
            ∧ User.password row = argon2_hash (entropy w) newPassword)
  ∧ (demoMode w = false →
     ∀ user, (getUserById userId w).1 = Ok (Some user) →
             argon2_verify (User.password user) currentPassword = true →
             (String.length newPassword < 8)%nat →
             after = (Throw invalid_password_length, w)).
Proof.
  simpl.
  unfold changePassword, getUserById, updateUser, draw, bind, gets, modify, ret, throw.
  simpl.
  destruct (demoMode w) eqn:Hdemo; simpl.
  { repeat split; try discriminate; excluded. }
  destruct (List.find _ (users w)) as [user|] eqn:Hfind; simpl.
  2: { repeat split; try discriminate; excluded. }
  destruct (argon2_verify (User.password user) currentPassword) eqn:Hpw; simpl.
  2: { repeat split; try discriminate; excluded. }
  destruct (Nat.ltb (String.length newPassword) 8) eqn:Hlen; simpl.
  { apply Nat.ltb_lt in Hlen. repeat split; try discriminate; excluded. }
  apply Nat.ltb_ge in Hlen.
  rewrite destroyAllSessionsByUserId_run. simpl.
  repeat split; eauto.
  - exists (patch user [set_password (argon2_hash (entropy w) newPassword)]).
    rewrite find_map_stable by (intros x; now rewrite updated_id).
    rewrite Hfind. simpl. unfold updated. rewrite N.eqb_refl. now simpl.
  - intros _ u Hu Hv Hshort. lia.
Qed.

(** *** C10 *)


(** *** What no request does *)

Lemma serve_demoMode (rq : Request) (w : World) :
  demoMode (serve rq w).2 = demoMode w.
Proof.
  destruct rq; unfold serve, outcome; branches; solve [reflexivity | congruence].
Qed.

(** *** Outcomes of the sign-in operations *)

(** X1: [login] throws user-not-found when no row has the username and
    invalid-credentials when the row's hash does not verify the password,
    both without touching the world; it succeeds exactly when a row has the
    username and its hash verifies the password. *)
Theorem login_outcome (w : World) (username password : string) :
  let after := login username password w in
  ((getUserByUsername username w).1 = Ok None →
     after = (Throw user_not_found, w))
  ∧ (∀ user, (getUserByUsername username w).1 = Ok (Some user) →
             argon2_verify (User.password user) password = false →
             after = (Throw invalid_credentials, w))
  ∧ (failure after.1 = None
     ↔ ∃ user, (getUserByUsername username w).1 = Ok (Some user)
               ∧ argon2_verify (User.password user) password = true).
Proof.
  simpl. unfold login, getUserByUsername, bind, gets, throw. simpl.
  destruct (List.find _ (users w)) as [user|]; simpl.
  - destruct (argon2_verify (User.password user) password) eqn:Hpw; simpl.
    + split; [discriminate|]. split; [intros u Hu; excluded|].
      destruct (User.totpEnabled user); service; simpl; split; eauto.
    + split; [discriminate|]. split; [reflexivity|].
      split; [discriminate | excluded].
  - split; [reflexivity|]. split; [discriminate|].
    split; [discriminate | excluded].
Qed.

(** X2: [verifyTotp] checks in this order, and a failed check leaves the
    world untouched: a challenge id that is absent from the cache or maps
    to the empty string gives totp-session-not-found; a challenge whose
    value is the id of no row gives user-not-found; a row with totpEnabled
    false, or without a secret or a salt, gives totp-not-enabled whatever
    the code; a code that does not check against the decrypted secret gives
    totp-invalid-code; otherwise the call returns true. *)
Theorem verifyTotp_outcome (w : World) (totpSessionId totpCode : string) :
  let after := verifyTotp totpSessionId totpCode w in
  (truthy_opt (cache w !! totpSessionId) = false →
     after = (Throw totp_session_not_found, w))
  ∧ (∀ userId,
       cache w !! totpSessionId = Some userId → truthy userId = true →
       ((getUserByNumber (Number userId) w).1 = Ok None →
          after = (Throw user_not_found, w))
       ∧ (∀ user,
            (getUserByNumber (Number userId) w).1 = Ok (Some user) →
            let enrolled :=
              User.totpEnabled user && truthy_opt (User.totpSecret user)
              && truthy_opt (User.salt user) in
            let valid :=
              TotpAuthenticator_check totpCode
                (decrypt (default "" (User.totpSecret user))
                         (default "" (User.salt user))) in
            (enrolled = false → after = (Throw totp_not_enabled, w))
            ∧ (enrolled = true → valid = false →
               after = (Throw totp_invalid_code, w))
            ∧ (enrolled = true → valid = true → after.1 = Ok true))).
Proof.
  simpl. unfold verifyTotp, bind, cache_get, gets, throw. simpl. split.
  - destruct (cache w !! totpSessionId) as [userId|]; simpl; [|reflexivity].
    intros ->. reflexivity.
  - intros userId -> Ht. simpl. rewrite Ht. simpl.
    destruct (getUserByNumber_reads (Number userId) w) as [row Hrow].
    rewrite Hrow. simpl. split.
    + intros E. injection E as ->. reflexivity.
    + intros user E. injection E as ->. simpl.
      destruct (User.totpEnabled user), (truthy_opt (User.totpSecret user)),
        (truthy_opt (User.salt user)); simpl;
        try (split; [reflexivity|]; split; discriminate).
      split; [discriminate|].
      destruct (TotpAuthenticator_check totpCode _); simpl.
      * split; [discriminate|]. intros _ _. service. reflexivity.
      * split; [reflexivity | discriminate].
Qed.

(** *** Enrolment of the second factor *)

(** X3: [setupTotp] throws not-allowed-in-demo in demo mode, user-not-found
    for an unknown id, totp-already-enabled when TOTP is already enabled
    and also when the row holds no secret or no salt (enrolment was never
    started), totp-invalid-code for a code that does not check; none of
    these changes the world.  Otherwise it returns true and sets
    totpEnabled in the row, keeping its secret and salt and every cache
    entry. *)
Theorem setupTotp_outcome (w : World) (userId : N) (totpCode : string) :
  let after := setupTotp userId totpCode w in
  (demoMode w = true → after = (Throw not_allowed_in_demo, w))
  ∧ (demoMode w = false →
     ((getUserById userId w).1 = Ok None → after = (Throw user_not_found, w))
     ∧ (∀ user,
          (getUserById userId w).1 = Ok (Some user) →
          let pending :=
            negb (User.totpEnabled user) && truthy_opt (User.totpSecret user)
            && truthy_opt (User.salt user) in
          let valid :=
            TotpAuthenticator_check totpCode
              (decrypt (default "" (User.totpSecret user))
                       (default "" (User.salt user))) in
          (pending = false → after = (Throw totp_already_enabled, w))
          ∧ (pending = true → valid = false →
             after = (Throw totp_invalid_code, w))
          ∧ (pending = true → valid = true →
             after.1 = Ok true
             ∧ cache after.2 = cache w
             ∧ ∃ row, (getUserById userId after.2).1 = Ok (Some row)
                      ∧ User.totpEnabled row = true
                      ∧ User.totpSecret row = User.totpSecret user
                      ∧ User.salt row = User.salt user
                      ∧ User.password row = User.password user))).
Proof.
  simpl. unfold setupTotp, getUserById, updateUser, bind, gets, modify, ret, throw.
  simpl. split; intros Hdemo; rewrite Hdemo; simpl; [reflexivity|].
  destruct (List.find _ (users w)) as [user|] eqn:Hfind; simpl.
  2: { split; [reflexivity | discriminate]. }
  split; [discriminate|]. intros u E. injection E as <-.
  destruct (User.totpEnabled user), (truthy_opt (User.totpSecret user)),
    (truthy_opt (User.salt user)); simpl;
    try (split; [reflexivity|]; split; discriminate).
  split; [discriminate|].
  destruct (TotpAuthenticator_check totpCode _); simpl.
  - split; [discriminate|]. intros _ _. split; [reflexivity|].
    split; [reflexivity|].
    exists (patch user [set_totpEnabled true]).
    rewrite find_map_stable by (intros x; now rewrite updated_id).
    rewrite Hfind. simpl. unfold updated.
    rewrite (proj2 (N.eqb_eq _ _) (find_id_eq _ _ _ Hfind)). now simpl.
  - split; [reflexivity | discriminate].
Qed.

(** X4: [getTotpUri] throws not-allowed-in-demo in demo mode, then
    user-not-found, invalid-password and totp-already-enabled in that
    order, none of which changes the world.  Otherwise it returns the
    provisioning uri for the user name under the service name Runtipi
    together with the new secret in clear, and stores that secret
    encrypted under the row's salt: the salt already in the row when there
    is one, a newly drawn one when the row has none.  totpEnabled stays
    false and the cache is not touched. *)
Theorem getTotpUri_outcome (w : World) (userId : N) (password : string) :
  let after := getTotpUri userId password w in
  (demoMode w = true → after = (Throw not_allowed_in_demo, w))
  ∧ (demoMode w = false →
     ((getUserById userId w).1 = Ok None → after = (Throw user_not_found, w))
     ∧ (∀ user,
          (getUserById userId w).1 = Ok (Some user) →
          (argon2_verify (User.password user) password = false →
             after = (Throw invalid_password, w))
          ∧ (argon2_verify (User.password user) password = true →
             User.totpEnabled user = true →
             after = (Throw totp_already_enabled, w))
          ∧ (argon2_verify (User.password user) password = true →
             User.totpEnabled user = false →
             let key := TotpAuthenticator_generateSecret (entropy w) in
             let salt :=
               if truthy_opt (User.salt user) then default "" (User.salt user)
               else generateSessionId (S (entropy w)) "" in
             after.1 = Ok (TotpAuthenticator_keyuri (User.username user)
                             "Runtipi" key, key)
             ∧ cache after.2 = cache w
             ∧ ∃ row, (getUserById userId after.2).1 = Ok (Some row)
                      ∧ User.totpSecret row = Some (encrypt key salt)
                      ∧ User.salt row = Some salt
                      ∧ User.totpEnabled row = false
                      ∧ User.password row = User.password user))).
Proof.
  simpl.
  unfold getTotpUri, getUserById, updateUser, draw, bind, gets, modify, ret, throw.
  simpl. split; intros Hdemo; rewrite Hdemo; simpl; [reflexivity|].
  destruct (List.find _ (users w)) as [user|] eqn:Hfind; simpl.
  2: { split; [reflexivity | discriminate]. }
  split; [discriminate|]. intros u E. injection E as <-.
  destruct (argon2_verify (User.password user) password); simpl.
  2: { split; [reflexivity|]. split; discriminate. }
  split; [discriminate|].
  destruct (User.totpEnabled user) eqn:Henabled; simpl.
  { split; [reflexivity | discriminate]. }
  split; [discriminate|]. intros _ _.
  assert (Hid : N.eqb (User.id user) userId = true)
    by (apply N.eqb_eq, (find_id_eq _ _ _ Hfind)).
  destruct (truthy_opt (User.salt user)); simpl.
  - split; [reflexivity|]. split; [reflexivity|].
    eexists. rewrite find_map_stable by (intros x; now rewrite updated_id).
    rewrite Hfind. simpl. unfold updated. rewrite Hid. simpl.
    split; [reflexivity|]. now simpl.
  - split; [reflexivity|]. split; [reflexivity|].
    eexists. rewrite find_map_stable by (intros x; now rewrite updated_id).
    rewrite Hfind. simpl. unfold updated. rewrite Hid. simpl.
    split; [reflexivity|]. now simpl.
Qed.

(** X5: enrolment end to end.  When the codec decrypts the secret it
    encrypted, and neither the ciphertext nor a drawn salt is the empty
    string, a
    [getTotpUri] that succeeded followed by [setupTotp] with a code that
    checks against the secret it returned succeeds and leaves the row with
    totpEnabled set. *)
Theorem getTotpUri_then_setupTotp (w : World) (userId : N)
    (password totpCode : string) (uri key : string) :
  (∀ salt, decrypt (encrypt key salt) salt = key) →
  (∀ salt, truthy (encrypt key salt) = true) →
  (∀ r, truthy (generateSessionId r "") = true) →
  let offered := getTotpUri userId password w in
  offered.1 = Ok (uri, key) →
  TotpAuthenticator_check totpCode key = true →
  let confirmed := setupTotp userId totpCode offered.2 in
  confirmed.1 = Ok true
  ∧ ∃ row, (getUserById userId confirmed.2).1 = Ok (Some row)
           ∧ User.totpEnabled row = true
           ∧ (∃ salt, User.salt row = Some salt
                      ∧ User.totpSecret row = Some (encrypt key salt)).
Proof.
  intros Hcodec Hcipher Hsalt. simpl. intros Hoffered Hcheck.
  destruct (getTotpUri_outcome w userId password) as [Hdemo Hrun].
  destruct (demoMode w) eqn:Hmode.
  { rewrite (Hdemo eq_refl) in Hoffered. discriminate. }
  destruct (Hrun eq_refl) as [Hnone Hsome].
  destruct (getUserById userId w) as [found w0] eqn:Hget.
  unfold getUserById, gets in Hget. injection Hget as <- <-.
  destruct (List.find _ (users w)) as [user|] eqn:Hfind.
  2: { rewrite (Hnone eq_refl) in Hoffered. discriminate. }
  destruct (Hsome user eq_refl) as (Hbad & Hon & Hok).
  destruct (argon2_verify (User.password user) password).
  2: { rewrite (Hbad eq_refl) in Hoffered. discriminate. }
  destruct (User.totpEnabled user) eqn:Henabled.
  { rewrite (Hon eq_refl eq_refl) in Hoffered. discriminate. }
  destruct (Hok eq_refl eq_refl)
    as (Hres & _ & row & Hrow & Hsecret & Hrsalt & Hoff & _).
  rewrite Hres in Hoffered. injection Hoffered as _ Hkey.
  assert (Hstill : demoMode (getTotpUri userId password w).2 = false).
  { rewrite <- Hmode. apply (serve_demoMode (GetTotpUri userId password) w). }
  destruct (setupTotp_outcome (getTotpUri userId password w).2 userId totpCode)
    as [_ Hsetup].
  destruct (Hsetup Hstill) as [_ Hsetup'].
  destruct (Hsetup' row Hrow) as (_ & _ & Hgo).
  rewrite Hoff, Hsecret, Hrsalt in Hgo. simpl in Hgo.
  rewrite Hkey in Hgo. rewrite Hcipher, Hcodec, Hcheck in Hgo.
  assert (Htruthy :
            truthy (if truthy_opt (User.salt user)
                    then default "" (User.salt user)
                    else generateSessionId (S (entropy w)) "") = true).
  { destruct (User.salt user) as [s|]; simpl; [|apply Hsalt].
    destruct (truthy s) eqn:Hs; [exact Hs | apply Hsalt]. }
  rewrite Htruthy in Hgo. simpl in Hgo.
  destruct (Hgo eq_refl eq_refl) as (Hr & _ & row' & Hrow' & Hen' & Hsec' & Hsalt' & _).
  split; [exact Hr|]. exists row'. split; [exact Hrow'|]. split; [exact Hen'|].
  eexists. split; [exact Hsalt' | exact Hsec'].
Qed.

(** *** Registration *)

Lemma find_app_none {A : Type} (p : A → bool) (l : list A) (x : A) :
  List.find p l = None → List.find p (l ++ [x]) = (if p x then Some x else None).
Proof.
  induction l as [|y l IH]; simpl; [reflexivity|].
  destruct (p y); [discriminate | exact IH].
Qed.

(** X6: with no operator row yet, [register] throws
    missing-email-or-password when the username or the password is empty,
    invalid-username when the username as typed has fewer than 3
    characters or its trimmed lower-case form is no e-mail address,
    user-already-exists when a row already has that form as username; none
    of these changes the world.  Otherwise it returns true, appends one row
    (a new id, the trimmed lower-case address, the hash of the password,
    operator set, the second factor not enrolled), issues a session for the
    new id, and [isConfigured] is true from then on. *)
Theorem register_outcome (w : World) (username password : string)
    (locale : option string) :
  (getOperators w).1 = Ok [] →
  let after := register username password locale w in
  let email := trim_toLowerCase username in
  (truthy username && truthy password = false →
     after = (Throw missing_email_or_password, w))
  ∧ (truthy username && truthy password = true →
     (Nat.ltb (String.length username) 3 || negb (isEmail email) = true →
        after = (Throw invalid_username, w))
     ∧ (Nat.ltb (String.length username) 3 || negb (isEmail email) = false →
        (∀ other, (getUserByUsername email w).1 = Ok (Some other) →
                  after = (Throw user_already_exists, w))
        ∧ ((getUserByUsername email w).1 = Ok None →
           let newUser :=
             User.mk (nextId (users w)) email (argon2_hash (entropy w) password)
               false None None (getLocaleFromString locale) true in
           after.1 = Ok true
           ∧ users after.2 = (users w ++ [newUser])%list
           ∧ resolve (uuidv4 (S (entropy w))) after.2
             = Some (toString (nextId (users w)))
           ∧ (isConfigured after.2).1 = Ok true))).
Proof.
  unfold getOperators, gets. simpl. intros Hops. injection Hops as Hops.
  unfold register, isConfigured, getOperators, getUserByUsername, createUser,
    setSession, cache_set, draw, resolve, bind, gets, modify, ret, throw.
  simpl. rewrite Hops. simpl.
  destruct (truthy username), (truthy password); simpl;
    try (split; [reflexivity | discriminate]).
  split; [discriminate|]. intros _.
  destruct (Nat.ltb (String.length username) 3 || negb (isEmail _)); simpl.
  { split; [reflexivity | discriminate]. }
  split; [discriminate|]. intros _.
  destruct (List.find _ (users w)) as [other|]; simpl.
  { split; [reflexivity | discriminate]. }
  split; [discriminate|]. intros _.
  split; [reflexivity|]. split; [reflexivity|]. split.
  - rewrite lookup_insert_ne by apply trackingKeyOf_neq_sessionKey.
    apply lookup_insert_eq.
  - rewrite List.filter_app, Hops. reflexivity.
Qed.

(** X7: registration then sign-in.  When a hash verifies the password it
    was made from, a [register] that succeeded is followed by a successful
    [login] with the trimmed lower-case address and the same password,
    which returns a session id for the new row (no challenge: the new row
    has no second factor). *)
Theorem register_then_login (w : World) (username password : string)
    (locale : option string) :
  (∀ r plain, argon2_verify (argon2_hash r plain) plain = true) →
  let registered := register username password locale w in
  registered.1 = Ok true →
  let logged := login (trim_toLowerCase username) password registered.2 in
  let sessionId := uuidv4 (entropy registered.2) in
  logged.1 = Ok (sessionId_of sessionId)
  ∧ resolve sessionId logged.2 = Some (toString (nextId (users w))).
Proof.
  intros Hhash. simpl.
  unfold register, getOperators, getUserByUsername, createUser,
    setSession, cache_set, draw, bind, gets, modify, ret, throw. simpl.
  destruct (Nat.ltb 0 _); simpl; [discriminate|].
  destruct (negb (truthy username) || negb (truthy password)); simpl;
    [discriminate|].
  destruct (Nat.ltb (String.length username) 3 || negb (isEmail _)); simpl;
    [discriminate|].
  destruct (List.find _ (users w)) as [other|] eqn:Hfree; simpl; [discriminate|].
  intros _.
  unfold login, getUserByUsername, setSession, cache_set, draw, resolve,
    bind, gets, modify, ret, throw. simpl.
  rewrite (find_app_none _ _ _ Hfree). simpl.
  rewrite String.eqb_refl. simpl. rewrite Hhash. simpl.
  split; [reflexivity|].
  rewrite lookup_insert_ne by apply trackingKeyOf_neq_sessionKey.
  apply lookup_insert_eq.
Qed.

(** *** Turning the second factor off *)

Lemma find_username_updated (userId : N) (fields : list Field) (name : string)
    (rows : list User.t) :
  (∀ x, User.username (patch x fields) = User.username x) →
  List.find (λ u, String.eqb (User.username u) name)
    (List.map (updated userId fields) rows)
  = updated userId fields
      <$> List.find (λ u, String.eqb (User.username u) name) rows.
Proof.
  intros Hkeep. apply find_map_stable. intros x. unfold updated.
  destruct (N.eqb (User.id x) userId); [now rewrite Hkeep | reflexivity].
Qed.

(** X8: [disableTotp] throws user-not-found for an unknown id,
    totp-not-enabled when the row has totpEnabled false (checked before
    the password), invalid-password when the hash does not verify the
    password; none of these changes the world.  Otherwise it returns true,
    sets totpEnabled to false and totpSecret to null in the row, and keeps
    the row's salt, its password and every cache entry.  Demo mode plays no
    part. *)
Theorem disableTotp_outcome (w : World) (userId : N) (password : string) :
  let after := disableTotp userId password w in
  ((getUserById userId w).1 = Ok None → after = (Throw user_not_found, w))
  ∧ (∀ user,
       (getUserById userId w).1 = Ok (Some user) →
       (User.totpEnabled user = false → after = (Throw totp_not_enabled, w))
       ∧ (User.totpEnabled user = true →
          argon2_verify (User.password user) password = false →
          after = (Throw invalid_password, w))
       ∧ (User.totpEnabled user = true →
          argon2_verify (User.password user) password = true →
          after.1 = Ok true
          ∧ cache after.2 = cache w
          ∧ ∃ row, (getUserById userId after.2).1 = Ok (Some row)
                   ∧ User.totpEnabled row = false
                   ∧ User.totpSecret row = None
                   ∧ User.salt row = User.salt user
                   ∧ User.password row = User.password user)).
Proof.
  simpl. unfold disableTotp, getUserById, updateUser, bind, gets, modify, ret, throw.
  simpl.
  destruct (List.find _ (users w)) as [user|] eqn:Hfind; simpl.
  2: { split; [reflexivity | discriminate]. }
  split; [discriminate|]. intros u E. injection E as <-.
  destruct (User.totpEnabled user); simpl.
  2: { split; [reflexivity|]. split; discriminate. }
  split; [discriminate|].
  destruct (argon2_verify (User.password user) password); simpl.
  2: { split; [reflexivity | discriminate]. }
  split; [discriminate|]. intros _ _.
  split; [reflexivity|]. split; [reflexivity|].
  exists (patch user [set_totpEnabled false; set_totpSecret None]).
  rewrite find_map_stable by (intros x; now rewrite updated_id).
  rewrite Hfind. simpl. unfold updated.
  rewrite (proj2 (N.eqb_eq _ _) (find_id_eq _ _ _ Hfind)). now simpl.
Qed.

(** X9: once [disableTotp] has succeeded for a row, [login] with that row's
    username and the same password returns a session id at once, with no
    challenge. *)
Theorem disableTotp_then_login (w : World) (userId : N)
    (username password : string) (user : User.t) :
  (getUserById userId w).1 = Ok (Some user) →
  (getUserByUsername username w).1 = Ok (Some user) →
  let disabled := disableTotp userId password w in
  disabled.1 = Ok true →
  let logged := login username password disabled.2 in
  let sessionId := uuidv4 (entropy w) in
  logged.1 = Ok (sessionId_of sessionId)
  ∧ resolve sessionId logged.2 = Some (toString userId).
Proof.
  unfold getUserById, getUserByUsername, gets. simpl.
  intros Hid Hname. injection Hid as Hid. injection Hname as Hname.
  unfold disableTotp, getUserById, updateUser, bind, gets, modify, ret, throw.
  simpl. rewrite Hid. simpl.
  destruct (User.totpEnabled user); simpl; [|discriminate].
  destruct (argon2_verify (User.password user) password) eqn:Hpw; simpl;
    [|discriminate].
  intros _.
  unfold login, getUserByUsername, setSession, cache_set, draw, resolve,
    bind, gets, modify, ret, throw. simpl.
  rewrite find_username_updated by reflexivity.
  rewrite Hname. simpl. unfold updated.
  rewrite (proj2 (N.eqb_eq _ _) (find_id_eq _ _ _ Hid)). simpl.
  rewrite Hpw. simpl. rewrite (find_id_eq _ _ _ Hid).
  split; [reflexivity|].
  rewrite lookup_insert_ne by apply trackingKeyOf_neq_sessionKey.
  apply lookup_insert_eq.
Qed.

(** *** The reset request *)

(** X10: [cancelPasswordChangeRequest] always returns true and leaves the
    marker absent, touching nothing else (and nothing at all when the
    marker was already absent); a [changeOperatorPassword] right after it
    throws no-change-password-request without changing any row. *)
Theorem cancelPasswordChangeRequest_outcome (w : World) (newPassword : string) :
  let after := cancelPasswordChangeRequest w in
  after.1 = Ok true
  ∧ after.2 = with_passwordChangeRequest false w
  ∧ (passwordChangeRequest w = false → after.2 = w)
  ∧ changeOperatorPassword newPassword after.2
    = (Throw no_change_password_request, after.2).
Proof.
  simpl.
  unfold cancelPasswordChangeRequest, changeOperatorPassword,
    checkPasswordChangeRequest, fileExists, unlinkFile, bind, gets, modify,
    ret, throw. simpl.
  destruct w as [rows c marker demo n]. simpl.
  destruct marker; simpl; repeat split; discriminate.
Qed.

(** *** Changing the username, the locale, the password *)

Lemma find_renamed (email : string) (userId : N) (rows : list User.t)
    (user : User.t) :
  List.find (λ u, String.eqb (User.username u) email) rows = None →
  List.find (λ u, N.eqb (User.id u) userId) rows = Some user →
  List.find (λ u, String.eqb (User.username u) email)
    (List.map (updated userId [set_username email]) rows)
  = Some (patch user [set_username email]).
Proof.
  induction rows as [|y rows IH]; [discriminate|].
  cbn [List.find List.map].
  destruct (String.eqb (User.username y) email) eqn:Hname; [discriminate|].
  unfold updated at 1 2.
  destruct (N.eqb (User.id y) userId).
  - intros _ E. injection E as <-. simpl. now rewrite String.eqb_refl.
  - rewrite Hname. exact IH.
Qed.

(** X11: [changeUsername] throws, in this order and without changing the
    world, not-allowed-in-demo, user-not-found, invalid-password,
    invalid-username (the trimmed lower-case form of the new name is no
    e-mail address) and user-already-exists.  Otherwise it returns true and
    the caller's row carries the trimmed lower-case address, with the same
    id, password and second-factor fields; looking that address up now
    finds the caller's row. *)
Theorem changeUsername_outcome (w : World) (newUsername password : string)
    (userId : N) :
  let after := changeUsername newUsername password userId w in
  let email := trim_toLowerCase newUsername in
  (demoMode w = true → after = (Throw not_allowed_in_demo, w))
  ∧ (demoMode w = false →
     ((getUserById userId w).1 = Ok None → after = (Throw user_not_found, w))
     ∧ (∀ user,
          (getUserById userId w).1 = Ok (Some user) →
          (argon2_verify (User.password user) password = false →
             after = (Throw invalid_password, w))
          ∧ (argon2_verify (User.password user) password = true →
             (isEmail email = false → after = (Throw invalid_username, w))
             ∧ (isEmail email = true →
                (∀ other, (getUserByUsername email w).1 = Ok (Some other) →
                          after = (Throw user_already_exists, w))
                ∧ ((getUserByUsername email w).1 = Ok None →
                   after.1 = Ok true
                   ∧ ∃ row,
                       (getUserById userId after.2).1 = Ok (Some row)
                       ∧ (getUserByUsername email after.2).1 = Ok (Some row)
                       ∧ User.username row = email
                       ∧ User.id row = User.id user
                       ∧ User.password row = User.password user
                       ∧ User.totpEnabled row = User.totpEnabled user
                       ∧ User.totpSecret row = User.totpSecret user
                       ∧ User.salt row = User.salt user))))).
Proof.
  simpl.
  unfold changeUsername, getUserById, getUserByUsername, updateUser, bind,
    gets, modify, ret, throw. simpl.
  split; intros Hdemo; rewrite Hdemo; simpl; [reflexivity|].
  destruct (List.find (λ u, N.eqb _ _) (users w)) as [user|] eqn:Hfind; simpl.
  2: { split; [reflexivity | discriminate]. }
  split; [discriminate|]. intros u E. injection E as <-.
  destruct (argon2_verify (User.password user) password); simpl.
  2: { split; [reflexivity | discriminate]. }
  split; [discriminate|]. intros _.
  destruct (isEmail (trim_toLowerCase newUsername)); simpl.
  2: { split; [reflexivity | discriminate]. }
  split; [discriminate|]. intros _.
  destruct (List.find (λ u, String.eqb _ _) (users w)) as [other|] eqn:Hfree; simpl.
  { split; [reflexivity | discriminate]. }
  split; [discriminate|]. intros _.
  rewrite destroyAllSessionsByUserId_run. simpl.
  split; [reflexivity|].
  exists (patch user [set_username (trim_toLowerCase newUsername)]).
  assert (Hid := find_id_eq _ _ _ Hfind). subst userId.
  rewrite find_map_stable by (intros x; now rewrite updated_id).
  rewrite Hfind. simpl.
  rewrite (find_renamed _ _ _ _ Hfree Hfind).
  unfold updated. rewrite N.eqb_refl. now simpl.
Qed.

(** X12: [changeLocale] throws invalid-locale for a locale outside
    [Locales] before it looks the user up, and user-not-found for an
    unknown id, both without changing the world.  Otherwise it returns true
    and only the locale of the row changes: the cache, and with it every
    session, is as before.  Demo mode plays no part. *)
Theorem changeLocale_outcome (w : World) (locale : string) (userId : N) :
  let after := changeLocale locale userId w in
  (locale ∉ Locales → after = (Throw invalid_locale, w))
  ∧ (locale ∈ Locales →
     ((getUserById userId w).1 = Ok None → after = (Throw user_not_found, w))
     ∧ (∀ user,
          (getUserById userId w).1 = Ok (Some user) →
          after.1 = Ok true
          ∧ cache after.2 = cache w
          ∧ ∃ row, (getUserById userId after.2).1 = Ok (Some row)
                   ∧ User.locale row = locale
                   ∧ User.username row = User.username user
                   ∧ User.password row = User.password user
                   ∧ User.totpEnabled row = User.totpEnabled user)).
Proof.
  simpl. unfold changeLocale, getUserById, updateUser, bind, gets, modify, ret, throw.
  split; intros Hin.
  - rewrite bool_decide_eq_false_2 by exact Hin. reflexivity.
  - rewrite bool_decide_eq_true_2 by exact Hin. simpl.
    destruct (List.find _ (users w)) as [user|] eqn:Hfind; simpl.
    2: { split; [reflexivity | discriminate]. }
    split; [discriminate|]. intros u E. injection E as <-.
    split; [reflexivity|]. split; [reflexivity|].
    exists (patch user [set_locale locale]).
    rewrite find_map_stable by (intros x; now rewrite updated_id).
    rewrite Hfind. simpl. unfold updated. rewrite N.eqb_refl. now simpl.
Qed.

(** X13: after a [changePassword] that succeeded, when a hash verifies the
    password it was made from, [login] with the row's username and the new
    password succeeds; and when the new hash does not verify the old
    password, [login] with the old password throws invalid-credentials. *)
Theorem changePassword_then_login (w : World)
    (currentPassword newPassword username : string) (userId : N) (user : User.t) :
  (∀ r plain, argon2_verify (argon2_hash r plain) plain = true) →
  (getUserById userId w).1 = Ok (Some user) →
  (getUserByUsername username w).1 = Ok (Some user) →
  let changed := changePassword currentPassword newPassword userId w in
  changed.1 = Ok true →
  failure (login username newPassword changed.2).1 = None
  ∧ (argon2_verify (argon2_hash (entropy w) newPassword) currentPassword = false →
     login username currentPassword changed.2
     = (Throw invalid_credentials, changed.2)).
Proof.
  intros Hhash. unfold getUserById, getUserByUsername, gets. simpl.
  intros Hid Hname. injection Hid as Hid. injection Hname as Hname.
  unfold changePassword, getUserById, updateUser, draw, bind, gets, modify,
    ret, throw. simpl.
  destruct (demoMode w); simpl; [discriminate|]. rewrite Hid. simpl.
  destruct (negb (argon2_verify _ _)); simpl; [discriminate|].
  destruct (Nat.ltb _ 8); simpl; [discriminate|].
  rewrite destroyAllSessionsByUserId_run. simpl. intros _.
  unfold login, getUserByUsername, bind, gets, throw. simpl.
  rewrite !find_username_updated by reflexivity.
  rewrite Hname. simpl. unfold updated. rewrite N.eqb_refl. simpl.
  split.
  - rewrite Hhash. simpl.
    destruct (User.totpEnabled user); service; reflexivity.
  - intros ->. reflexivity.
Qed.

(** *** Keys of different users *)

Lemma toString_inj (a b : N) : toString a = toString b → a = b.
Proof.
  unfold toString. intros E.
  apply (f_equal NilEmpty.uint_of_string) in E.
  rewrite !NilEmpty.usu in E. injection E as E.
  rewrite <- (DecimalN.Unsigned.of_to a), <- (DecimalN.Unsigned.of_to b).
  now rewrite E.
Qed.

Lemma string_of_uint_digits (d : Decimal.uint) :
  includes_colon (NilEmpty.string_of_uint d) = false.
Proof. induction d; simpl; [reflexivity | exact IHd..]. Qed.

Lemma toString_digits (n : N) : includes_colon (toString n) = false.
Proof. apply string_of_uint_digits. Qed.

Lemma toString_truthy (n : N) : truthy (toString n) = true.
Proof.
  unfold toString. destruct n as [|p]; [reflexivity|].
  destruct (NilEmpty.string_of_uint (N.to_uint (N.pos p))) eqn:E; [|reflexivity].
  exfalso.
  apply (f_equal NilEmpty.uint_of_string) in E.
  rewrite NilEmpty.usu in E. simpl in E. injection E as E.
  apply (f_equal N.of_uint) in E.
  change (N.of_uint (N.to_uint (N.pos p)) = 0%N) in E.
  rewrite DecimalN.Unsigned.of_to in E. discriminate.
Qed.

Lemma includes_colon_cons (c : ascii) (s : string) :
  includes_colon (String c s) = Ascii.eqb ":" c || includes_colon s.
Proof. reflexivity. Qed.

Lemma startsWith_cons (a b : ascii) (p s : string) :
  startsWith (String a p) (String b s) = Ascii.eqb a b && startsWith p s.
Proof. reflexivity. Qed.

(** A key that starts with [a:] holds a colon. *)
Lemma startsWith_colon (a s : string) :
  startsWith (a +:+ ":") s = true → includes_colon s = true.
Proof.
  revert s. induction a as [|c a IH]; intros s.
  - change ("" +:+ ":") with ":". destruct s as [|b s]; [discriminate|].
    rewrite startsWith_cons, includes_colon_cons.
    intros E. apply andb_true_iff in E as [E _]. now rewrite E.
  - change (String c a +:+ ":") with (String c (a +:+ ":")).
    destruct s as [|b s]; [discriminate|].
    rewrite startsWith_cons, includes_colon_cons.
    intros E. apply andb_true_iff in E as [_ E].
    rewrite (IH _ E). apply orb_true_r.
Qed.

(** Two colon-free words followed by a colon: one is a prefix of the other
    only when the words are equal. *)
Lemma startsWith_word (a b s : string) :
  includes_colon a = false → includes_colon b = false →
  startsWith (a +:+ ":") (b +:+ ":" +:+ s) = true → a = b.
Proof.
  revert b. induction a as [|x a IH]; intros [|y b] Ha Hb.
  - reflexivity.
  - change ("" +:+ ":") with ":".
    change (String y b +:+ ":" +:+ s) with (String y (b +:+ ":" +:+ s)).
    rewrite startsWith_cons. rewrite includes_colon_cons in Hb.
    apply orb_false_elim in Hb as [Hy _]. rewrite Hy. discriminate.
  - change (String x a +:+ ":") with (String x (a +:+ ":")).
    change ("" +:+ ":" +:+ s) with (String ":" s).
    rewrite startsWith_cons. rewrite includes_colon_cons in Ha.
    apply orb_false_elim in Ha as [Hx _].
    rewrite Ascii.eqb_sym, Hx. discriminate.
  - change (String x a +:+ ":") with (String x (a +:+ ":")).
    change (String y b +:+ ":" +:+ s) with (String y (b +:+ ":" +:+ s)).
    rewrite startsWith_cons. rewrite includes_colon_cons in Ha, Hb.
    apply orb_false_elim in Ha as [_ Ha]. apply orb_false_elim in Hb as [_ Hb].
    intros E. apply andb_true_iff in E as [Exy E].
    apply Ascii.eqb_eq in Exy. subst y. f_equal. now apply IH.
Qed.

Lemma trackingKey_other_user (userId other : N) (sessionId : string) :
  userId ≠ other →
  startsWith (userSessionsPrefix userId) (trackingKey other sessionId) = false.
Proof.
  intros Hne.
  destruct (startsWith (userSessionsPrefix userId) (trackingKey other sessionId))
    eqn:E; [|reflexivity].
  exfalso. apply Hne, toString_inj.
  apply (startsWith_word _ _ sessionId); try apply toString_digits.
  unfold userSessionsPrefix, trackingKey, trackingKeyOf in E.
  change (startsWith (String "s" (String "e" (String "s" (String "s" (String "i"
            (String "o" (String "n" (String ":" (toString userId +:+ ":")))))))))
            (String "s" (String "e" (String "s" (String "s" (String "i"
            (String "o" (String "n" (String ":"
               (toString other +:+ ":" +:+ sessionId))))))))) = true) in E.
  rewrite !startsWith_cons in E. simpl in E. exact E.
Qed.

Lemma sessionKey_under_prefix (userId : N) (sessionId : string) :
  startsWith (userSessionsPrefix userId) (sessionKey sessionId) = true →
  includes_colon sessionId = true.
Proof.
  unfold userSessionsPrefix, sessionKey. intros E.
  apply (startsWith_colon (toString userId)).
  change (startsWith (String "s" (String "e" (String "s" (String "s" (String "i"
            (String "o" (String "n" (String ":" (toString userId +:+ ":")))))))))
            (String "s" (String "e" (String "s" (String "s" (String "i"
            (String "o" (String "n" (String ":" sessionId)))))))) = true) in E.
  rewrite !startsWith_cons in E. simpl in E. exact E.
Qed.

Lemma swept_subset (sessions : list (string * string)) (c : gmap string string)
    (key value : string) :
  swept sessions c !! key = Some value → c !! key = Some value.
Proof.
  revert c. induction sessions as [|[k v] sessions IH]; intros c; simpl;
    [tauto|].
  intros Hl. apply IH in Hl.
  destruct (truthy v); repeat (apply lookup_delete_Some in Hl as [_ Hl]);
    exact Hl.
Qed.

(** X14: [destroyAllSessionsByUserId] never throws and changes nothing but
    the cache, where it only removes entries.  An entry that is neither
    under the user's prefix session:<userId>: nor named by the value of an
    entry under it is left alone.  The prefix of one user never covers a
    tracking key of another user (session:1: does not cover
    session:11:...), nor the primary key of a session id without a colon,
    so the sweep removes those only when an entry under the user's prefix
    names them. *)
Theorem destroyAllSessionsByUserId_spares (w : World) (userId other : N)
    (sessionId key : string) :
  let after := destroyAllSessionsByUserId userId w in
  let named k := ∃ k', startsWith (userSessionsPrefix userId) k' = true
                       ∧ cache w !! k' = Some k in
  after.1 = Ok tt
  ∧ users after.2 = users w
  ∧ passwordChangeRequest after.2 = passwordChangeRequest w
  ∧ (∀ value, cache after.2 !! key = Some value → cache w !! key = Some value)
  ∧ (startsWith (userSessionsPrefix userId) key = false → ¬ named key →
     cache after.2 !! key = cache w !! key)
  ∧ (userId ≠ other → ¬ named (trackingKey other sessionId) →
     cache after.2 !! trackingKey other sessionId
     = cache w !! trackingKey other sessionId)
  ∧ (includes_colon sessionId = false → ¬ named (sessionKey sessionId) →
     resolve sessionId after.2 = resolve sessionId w).
Proof.
  cbv zeta. rewrite destroyAllSessionsByUserId_run.
  unfold resolve. cbn [fst snd users cache passwordChangeRequest with_cache].
  set (sessions := map_to_list _).
  assert (Hother : ∀ k,
             startsWith (userSessionsPrefix userId) k = false →
             ¬ (∃ k', startsWith (userSessionsPrefix userId) k' = true
                      ∧ cache w !! k' = Some k) →
             swept sessions (cache w) !! k = cache w !! k).
  { intros k Hout Hnamed. apply swept_other. intros k' v Hin.
    apply elem_of_map_to_list, map_lookup_filter_Some in Hin as [Hk' Hp].
    cbn [fst] in Hp. split.
    - intros ->. congruence.
    - intros _ ->. apply Hnamed. eauto. }
  split; [reflexivity|]. split; [reflexivity|]. split; [reflexivity|].
  split; [|split; [exact (Hother key)|split]].
  - intros value. apply swept_subset.
  - intros Hne. apply Hother. now apply trackingKey_other_user.
  - intros Hcolon. apply Hother.
    destruct (startsWith (userSessionsPrefix userId) (sessionKey sessionId))
      eqn:E; [|reflexivity].
    apply sessionKey_under_prefix in E. congruence.
Qed.

(** *** What no request does, continued *)

(** X15: whatever the request and its outcome, the service does not change
    the demo-mode setting, never creates the reset marker (it can only
    remove it), never takes back a random draw, and never removes a row or
    changes a row id: the ids after the request are the ids before it,
    followed by at most the id of the row that [register] added. *)
Theorem serve_frame (rq : Request) (w : World) :
  let after := (serve rq w).2 in
  demoMode after = demoMode w
  ∧ (passwordChangeRequest after = true → passwordChangeRequest w = true)
  ∧ (entropy w ≤ entropy after)%nat
  ∧ ∃ added,
      List.map User.id (users after) = (List.map User.id (users w) ++ added)%list
      ∧ (List.length added ≤ 1)%nat
      ∧ (added ≠ [] → ∃ username password locale,
                        rq = Register username password locale).
Proof.
  cbv zeta. split; [apply serve_demoMode|].
  destruct rq; unfold serve, outcome; branches;
    (split; [first [congruence | discriminate | tauto]|]);
    (split; [lia|]);
    first [ exists []; rewrite ?ids_updated, app_nil_r;
            split; [reflexivity | split; [simpl; lia | congruence]]
          | eexists [_]; rewrite List.map_app;
            split; [reflexivity | split; [simpl; lia | eauto]] ].
Qed.

(** X16: demo mode blocks exactly [getTotpUri], [setupTotp],
    [changePassword] and [changeUsername]: in demo mode each of them throws
    not-allowed-in-demo before anything else, whatever its arguments, and
    leaves the world alone.  Every other request behaves the same with demo
    mode on or off: same outcome, same rows, cache and marker. *)
Theorem demo_mode_gate (rq : Request) (w : World) (b : bool) :
  (demo_gated rq = true → demoMode w = true →
     serve rq w = (Some not_allowed_in_demo, w))
  ∧ (demo_gated rq = false →
     (serve rq (with_demoMode b w)).1 = (serve rq w).1
     ∧ (serve rq (with_demoMode b w)).2 = with_demoMode b (serve rq w).2).
Proof.
  split.
  - intros Hgate Hdemo.
    destruct rq; try discriminate Hgate; unfold serve, outcome;
      unfold getTotpUri, setupTotp, changePassword, changeUsername, bind, gets,
        throw; simpl; rewrite Hdemo; reflexivity.
  - intros Hgate.
    destruct rq; try discriminate Hgate; unfold serve, outcome, with_demoMode;
      branches; split; solve [reflexivity | congruence].
Qed.

(** *** Sign-in in two steps, sign-out, recovery *)

(** X17: the two steps of a sign-in with the second factor.  When [Number]
    reads back the decimal form of the row id, [login] for a row with TOTP
    enrolled returns a challenge id, and [verifyTotp] with that challenge
    id then succeeds and issues a session for the same row when the code
    checks against the decrypted secret, and throws totp-invalid-code
    (leaving the challenge in place) when it does not. *)
Theorem login_then_verifyTotp_session (w : World)
    (username password totpCode : string) (user : User.t) (secret salt : string) :
  Number (toString (User.id user)) = Some (User.id user) →
  (getUserByUsername username w).1 = Ok (Some user) →
  (getUserById (User.id user) w).1 = Ok (Some user) →
  argon2_verify (User.password user) password = true →
  User.totpEnabled user = true →
  User.totpSecret user = Some secret → truthy secret = true →
  User.salt user = Some salt → truthy salt = true →
  let logged := login username password w in
  let challenge := generateSessionId (entropy w) "otp" in
  let verified := verifyTotp challenge totpCode logged.2 in
  logged.1 = Ok (totpSessionId_of challenge)
  ∧ (TotpAuthenticator_check totpCode (decrypt secret salt) = true →
     verified.1 = Ok true
     ∧ resolve (uuidv4 (S (entropy w))) verified.2
       = Some (toString (User.id user)))
  ∧ (TotpAuthenticator_check totpCode (decrypt secret salt) = false →
     verified = (Throw totp_invalid_code, logged.2)).
Proof.
  intros Hnum Hname Hid Hpw Hon Hsecret Hst Hsalt Hsaltt.
  unfold getUserByUsername, getUserById, gets in Hname, Hid. simpl in Hname, Hid.
  injection Hname as Hname. injection Hid as Hid. cbv zeta.
  assert (Hlogin :
            login username password w
            = (Ok (totpSessionId_of (generateSessionId (entropy w) "otp")),
               with_cache
                 <[generateSessionId (entropy w) "otp" := toString (User.id user)]>
                 (tick w))).
  { unfold login, getUserByUsername, cache_set, draw, bind, gets, modify, ret,
      throw. simpl. rewrite Hname. simpl. rewrite Hpw. simpl. rewrite Hon.
    reflexivity. }
  rewrite Hlogin. cbn [fst snd]. split; [reflexivity|].
  unfold verifyTotp, cache_get, bind, gets, throw.
  cbn [fst snd cache with_cache tick]. rewrite lookup_insert_eq.
  rewrite toString_truthy. cbn [negb]. rewrite Hnum.
  unfold getUserByNumber, getUserById, gets. cbn [users with_cache tick].
  rewrite Hid. rewrite Hon, Hsecret, Hsalt. simpl. rewrite Hst, Hsaltt. simpl.
  split; intros Hcheck; rewrite Hcheck; simpl; [|reflexivity].
  unfold setSession, cache_set, draw, resolve, bind, modify, ret. simpl.
  split; [reflexivity|].
  rewrite lookup_insert_ne by apply trackingKeyOf_neq_sessionKey.
  apply lookup_insert_eq.
Qed.

(** X18: [logout] of a session id whose primary entry is absent changes
    nothing, and a second [logout] of the same id changes nothing either;
    it returns true in every case. *)
Theorem logout_idempotent (w : World) (sessionId : string) :
  (resolve sessionId w = None → logout sessionId w = (Ok true, w))
  ∧ logout sessionId (logout sessionId w).2 = logout sessionId w.
Proof.
  unfold logout, cache_del, resolve, bind, modify, ret. simpl.
  destruct w as [rows c marker demo n]. unfold with_cache. simpl. split.
  - intros Habsent. now rewrite delete_id.
  - now rewrite delete_delete_eq.
Qed.

Lemma register_refusal (w : World) (username password : string)
    (locale : option string) :
  (register username password locale w).1 = Throw admin_already_exists
  ↔ Nat.ltb 0 (List.length (List.filter User.operator (users w))) = true.
Proof.
  unfold register, getOperators, bind, gets, throw. simpl.
  destruct (Nat.ltb 0 _); simpl; [tauto|].
  split; [|discriminate]. branches; discriminate.
Qed.

(** X19: [isConfigured] reads the table only, and it answers true exactly
    when [register] would be refused with admin-already-exists, whatever
    the username and password offered. *)
Theorem isConfigured_register (w : World) (username password : string)
    (locale : option string) :
  (isConfigured w).2 = w
  ∧ ((isConfigured w).1 = Ok true
     ↔ register username password locale w = (Throw admin_already_exists, w))
  ∧ ((isConfigured w).1 = Ok false
     ↔ (register username password locale w).1 ≠ Throw admin_already_exists).
Proof.
  split; [reflexivity|].
  assert (Hrefusal := register_refusal w username password locale).
  assert (Hworld : (register username password locale w).1
                   = Throw admin_already_exists →
                   register username password locale w
                   = (Throw admin_already_exists, w)).
  { intros E. apply Hrefusal in E. unfold register, getOperators, bind, gets, throw.
    simpl. rewrite E. reflexivity. }
  unfold isConfigured, getOperators, bind, gets, ret. simpl.
  destruct (Nat.ltb 0 _); split; split.
  - intros _. apply Hworld, Hrefusal. reflexivity.
  - reflexivity.
  - discriminate.
  - intros Hno. elim Hno. apply Hrefusal. reflexivity.
  - discriminate.
  - intros E. apply (f_equal fst) in E. apply Hrefusal in E. discriminate.
  - intros _ E. apply Hrefusal in E. discriminate.
  - reflexivity.
Qed.

(** X20: recovery end to end.  When a hash verifies the password it was
    made from, a [changeOperatorPassword] that succeeded is followed by a
    [login] of the operator with the new password that returns a session
    id at once, without a challenge, also when the operator had the second
    factor enabled before the reset. *)
Theorem changeOperatorPassword_then_login (w : World) (newPassword : string)
    (user : User.t) :
  (∀ r plain, argon2_verify (argon2_hash r plain) plain = true) →
  (getFirstOperator w).1 = Ok (Some user) →
  (getUserByUsername (User.username user) w).1 = Ok (Some user) →
  let reset := changeOperatorPassword newPassword w in
  failure reset.1 = None →
  let logged := login (User.username user) newPassword reset.2 in
  let sessionId := uuidv4 (entropy reset.2) in
  logged.1 = Ok (sessionId_of sessionId)
  ∧ resolve sessionId logged.2 = Some (toString (User.id user)).
Proof.
  intros Hhash. unfold getFirstOperator, getUserByUsername, gets. simpl.
  intros Hop Hname. injection Hop as Hop. injection Hname as Hname.
  unfold changeOperatorPassword, checkPasswordChangeRequest, fileExists,
    getFirstOperator, updateUser, unlinkFile, draw, bind, gets, modify, ret,
    throw. simpl.
  destruct (passwordChangeRequest w); simpl; [|discriminate].
  rewrite Hop. simpl. intros _.
  unfold login, getUserByUsername, setSession, cache_set, draw, resolve,
    bind, gets, modify, ret, throw. simpl.
  rewrite find_username_updated by reflexivity.
  rewrite Hname. simpl. unfold updated. rewrite N.eqb_refl. simpl.
  rewrite Hhash. simpl. split; [reflexivity|].
  rewrite lookup_insert_ne by apply trackingKeyOf_neq_sessionKey.
  apply lookup_insert_eq.
Qed.

End Properties.

(** ** Properties of TipiConfig *)

Section ConfigProperties.
Import TipiConfig.
Context `{Platform}.

Lemma getFileConfig_stale (h : Host) :
  stale h → getFileConfig h = readFileConfig (now h).2.
Proof.
  unfold stale, getFileConfig, now. simpl. intros Hstale.
  destruct (fileConfigCache (self h)) as [cached|]; [|reflexivity].
  specialize (Hstale cached eq_refl).
  destruct (Z.ltb_spec (Date_now (clock_reads h) - cacheTime (self h))
              (cacheTimeout (self h))); [lia | reflexivity].
Qed.

Lemma getFileConfig_config (h : Host) :
  config (self (getFileConfig h).2) = config (self h)
  ∧ cacheTimeout (self (getFileConfig h).2) = cacheTimeout (self h)
  ∧ settings_json (getFileConfig h).2 = settings_json h.
Proof.
  unfold getFileConfig, readFileConfig, readSettings, now. simpl.
  destruct (fileConfigCache (self h)) as [cached|];
    [destruct (Z.ltb _ _)|];
    simpl; try destruct (settingsSchema_safeParse _); simpl; auto.
Qed.

(** X21: the settings file is cached.  When [getFileConfig] finds its
    cache absent or too old and the file parses, it returns the parsed
    settings, and every later call on that instance whose clock read is
    less than cacheTimeout after the time stored with the cache returns the
    same settings without reading the file, whatever the file holds by
    then. *)
Theorem getFileConfig_serves_cache (h later : Host) (data : Obj) :
  stale h →
  settingsSchema_safeParse (readSettings h) = Some data →
  self later = self (getFileConfig h).2 →
  (Date_now (clock_reads later) - Date_now (S (clock_reads h))
   < cacheTimeout (self h))%Z →
  (getFileConfig h).1 = data
  ∧ getFileConfig later = (data, (now later).2).
Proof.
  intros Hstale Hparse Hself Hfresh.
  rewrite (getFileConfig_stale h Hstale) in Hself |- *.
  unfold readFileConfig, readSettings, now in Hself |- *. simpl in Hself |- *.
  unfold readSettings in Hparse. rewrite Hparse in Hself |- *. simpl in Hself |- *.
  split; [reflexivity|].
  unfold getFileConfig, now. simpl. rewrite Hself. simpl.
  destruct (Z.ltb_spec (Date_now (clock_reads later) - Date_now (S (clock_reads h)))
              (cacheTimeout (self h))); [reflexivity | lia].
Qed.

(** X22: when the cache is absent or too old, [getFileConfig] returns what
    the file parses to, and {} when the file does not parse: settings
    cached earlier are not served past their time, and in that case the
    cache fields stay as they were.  After [resetCache] this holds whatever
    the clock says. *)
Theorem getFileConfig_rereads (h : Host) :
  (stale h →
     (getFileConfig h).1 = default ∅ (settingsSchema_safeParse (readSettings h))
     ∧ (settingsSchema_safeParse (readSettings h) = None →
        self (getFileConfig h).2 = self h))
  ∧ (getFileConfig (resetCache h)).1
    = default ∅ (settingsSchema_safeParse (readSettings h)).
Proof.
  assert (Hread : ∀ g, stale g →
            (getFileConfig g).1
            = default ∅ (settingsSchema_safeParse (readSettings g))
            ∧ (settingsSchema_safeParse (readSettings g) = None →
               self (getFileConfig g).2 = self g)).
  { intros g Hstale. rewrite (getFileConfig_stale g Hstale).
    unfold readFileConfig, readSettings, now. simpl.
    destruct (settingsSchema_safeParse _); simpl; [|auto].
    split; [reflexivity | discriminate]. }
  split; [apply Hread|].
  apply (Hread (resetCache h)). intros cached Hc. discriminate Hc.
Qed.

(** X23: precedence in [getConfig].  A field of the settings file (as
    [getFileConfig] serves it) wins over the same field of the parsed
    environment; and unless the merged NODE_ENV is the string test,
    postgresPort is 5432 whatever both say.  [getConfig] leaves the
    instance's [config] and the file as they are. *)
Theorem getConfig_precedence (h : Host) (key : string) :
  let fileConfig := (getFileConfig h).1 in
  let merged k :=
    match fileConfig !! k with
    | Some v => Some v
    | None => config (self h) !! k
    end in
  (getConfig h).1 !! key
  = (if negb (field_is "test" (merged "NODE_ENV")) && String.eqb key "postgresPort"
     then Some (v_number 5432)
     else merged key)
  ∧ config (self (getConfig h).2) = config (self h)
  ∧ settings_json (getConfig h).2 = settings_json h.
Proof.
  cbv zeta. destruct (getFileConfig_config h) as (Hconfig & _ & Hfile).
  unfold getConfig, spread.
  destruct (getFileConfig h) as [fileConfig h'] eqn:Hget. simpl in *.
  rewrite Hconfig.
  assert (Hmerged : ∀ k, (fileConfig ∪ config (self h)) !! k
                         = match fileConfig !! k with
                           | Some v => Some v
                           | None => config (self h) !! k
                           end).
  { intros k. rewrite lookup_union. destruct (fileConfig !! k), (config (self h) !! k);
      reflexivity. }
  rewrite <- (Hmerged "NODE_ENV").
  destruct (field_is "test" _); simpl.
  - rewrite Hmerged. auto.
  - split; [|auto].
    destruct (String.eqb_spec key "postgresPort") as [-> | Hne].
    + apply lookup_union_Some_l, lookup_singleton_eq.
    + rewrite lookup_union_r by (apply lookup_singleton_ne; congruence).
      apply Hmerged.
Qed.

(** X24: [setSettings] throws in demo mode (the demoMode field of the
    instance's [config]) and changes nothing; settings that do not parse
    are dropped without an error and without any change.  Otherwise the
    file holds the parsed settings from then on, also when the final parse
    of the environment fails and the call throws; and when it succeeds and
    the file as written parses back to the same settings, the cache holds
    them and [config] is the parsed environment. *)
Theorem setSettings_outcome (h : Host) (settings : Raw) :
  let after := setSettings settings h in
  (field_truthy (config (self h) !! "demoMode") = true →
     after = (inr demo_mode_error, h))
  ∧ (field_truthy (config (self h) !! "demoMode") = false →
     (settingsSchema_safeParse settings = None → after = (inl tt, h))
     ∧ (∀ data,
          settingsSchema_safeParse settings = Some data →
          settings_json after.2 = Some (objRaw data)
          ∧ (after.1 = inl tt ∨ after.1 = inr zod_error)
          ∧ (settingsSchema_safeParse (objRaw data) = Some data →
             fileConfigCache (self after.2) = Some data
             ∧ (after.1 = inl tt →
                envSchema_safeParse
                  (objRaw (spread (getConfig (resetCache
                     (with_settings_json (Some (objRaw data)) h))).1 data))
                = Some (config (self after.2)))))).
Proof.
  cbv zeta. unfold setSettings.
  destruct (field_truthy _); [split; [reflexivity | discriminate]|].
  split; [discriminate|]. intros _.
  destruct (settingsSchema_safeParse settings) as [data|];
    [|split; [reflexivity | discriminate]].
  split; [discriminate|]. intros d E. injection E as <-.
  set (h2 := resetCache (with_settings_json (Some (objRaw data)) h)).
  destruct (getConfig_precedence h2 "") as (_ & _ & Hfile).
  assert (Hcache : settingsSchema_safeParse (objRaw data) = Some data →
                   fileConfigCache (self (getConfig h2).2) = Some data).
  { intros Hback. unfold getConfig.
    assert (Hstale : stale h2) by (intros c Hc; discriminate Hc).
    rewrite (getFileConfig_stale h2 Hstale).
    unfold readFileConfig, readSettings, now. simpl. rewrite Hback. simpl.
    destruct (field_is "test" _); reflexivity. }
  destruct (getConfig h2) as [conf h3] eqn:Hget. simpl in Hfile, Hcache.
  destruct (envSchema_safeParse _) as [parsedEnv|] eqn:Henv; simpl.
  - split; [exact Hfile|]. split; [auto|]. intros Hback.
    split; [exact (Hcache Hback) | intros _; reflexivity].
  - split; [exact Hfile|]. split; [auto|]. intros Hback.
    split; [exact (Hcache Hback) | discriminate].
Qed.

(** X25: [setConfig] does not reset the cache.  When the call is served
    from a cache that is still in time and succeeds with writeFile set, the
    file is rewritten, but every later [getFileConfig] on that instance
    that is still within cacheTimeout of the cached read returns the
    settings cached before the write. *)
Theorem setConfig_keeps_cache (h later : Host) (key : string) (value : Value)
    (cached : Obj) :
  fileConfigCache (self h) = Some cached →
  (Date_now (clock_reads h) - cacheTime (self h) < cacheTimeout (self h))%Z →
  let after := setConfig key value true h in
  after.1 = inl tt →
  self later = self after.2 →
  (Date_now (clock_reads later) - cacheTime (self h) < cacheTimeout (self h))%Z →
  (∃ parsed, settings_json after.2 = Some (objRaw parsed))
  ∧ (getFileConfig later).1 = cached.
Proof.
  intros Hcached Hfresh. cbv zeta.
  assert (Hget : getFileConfig h = (cached, (now h).2)).
  { unfold getFileConfig, now. simpl. rewrite Hcached.
    destruct (Z.ltb_spec (Date_now (clock_reads h) - cacheTime (self h))
                (cacheTimeout (self h))); [reflexivity | lia]. }
  unfold setConfig, getConfig. rewrite Hget. unfold now. simpl.
  destruct (field_is "test" _); simpl;
    (destruct (envSchema_safeParse _) as [parsedEnv|]; simpl; [|discriminate];
     destruct (envSchema_partial_safeParse _) as [parsedConf|]; simpl;
       [|discriminate];
     destruct (envSchema_partial_safeParse _) as [parsed|]; simpl;
       [|discriminate];
     intros _ Hself Hlater; split; [eauto|];
     unfold getFileConfig, now; simpl; rewrite Hself; simpl; rewrite Hcached;
     destruct (Z.ltb_spec (Date_now (clock_reads later) - cacheTime (self h))
                 (cacheTimeout (self h))); [reflexivity | lia]).
Qed.

End ConfigProperties.

(** ** The service on the concrete collaborators *)

#[local] Existing Instance Demo.collaborators.

(** The scenario of a@example.com: login gives a session id, and after
    logout the session id resolves to absent. *)
Example login_then_logout :
  let logged := login "a@example.com" "Secr3t!!" Demo.world in
  logged.1 = Ok (sessionId_of "uuid0")
  ∧ resolve "uuid0" logged.2 = Some "1"
  ∧ resolve "uuid0" (logout "uuid0" logged.2).2 = None.
Proof. vm_compute. repeat split. Qed.

(** login, then the second factor, for the row with TOTP enrolled. *)
Example login_then_verifyTotp :
  let logged := login "b@example.com" "hunter22" Demo.world in
  logged.1 = Ok (totpSessionId_of "otp-uuid0")
  ∧ logged.2 = Demo.challenged
  ∧ (verifyTotp "otp-uuid0" "123456" logged.2).1 = Ok true
  ∧ resolve "uuid1" (verifyTotp "otp-uuid0" "123456" logged.2).2 = Some "2".
Proof. vm_compute. repeat split. Qed.

(** Registration on an empty table, then a second one. *)
Example register_twice :
  let first := register "A@Example.com" "Secr3t!!" None Demo.empty in
  first.1 = Ok true
  ∧ (register "c@example.com" "Secr3t!!" None first.2).1 = Throw admin_already_exists.
Proof. vm_compute. repeat split. Qed.

(** C1, counterexample: in [Demo.challenged] the challenge otp-uuid0
    resolves to row 2; after a [verifyTotp] with a wrong code, and after one
    with the right code, the challenge is still in the cache and the next
    call with it succeeds instead of throwing totp-session-not-found. *)
Lemma verifyTotp_challenge_reusable :
  let w := Demo.challenged in
  let failed := verifyTotp "otp-uuid0" "000000" w in
  let passed := verifyTotp "otp-uuid0" "123456" failed.2 in
  let again := verifyTotp "otp-uuid0" "123456" passed.2 in
  (cache w !! "otp-uuid0" = Some "2"
   ∧ (getUserByNumber (Number "2") w).1 = Ok (Some Demo.bob))
  ∧ failed.1 = Throw totp_invalid_code
  ∧ cache failed.2 !! "otp-uuid0" = Some "2"
  ∧ passed.1 = Ok true
  ∧ cache passed.2 !! "otp-uuid0" = Some "2"
  ∧ again.1 = Ok true
  ∧ again.1 ≠ Throw totp_session_not_found.
Proof. vm_compute. repeat split; discriminate. Qed.

(** C1, witness of the amended statement in [Demo.challenged]. *)
Lemma verifyTotp_keeps_challenge_witness :
  let w := Demo.challenged in
  let after := verifyTotp "otp-uuid0" "123456" w in
  (cache w !! "otp-uuid0" = Some "2"
   ∧ truthy "2" = true
   ∧ startsWith "session:" "otp-uuid0" = false)
  ∧ cache after.2 !! "otp-uuid0" = Some "2"
  ∧ (after.1 ≠ Ok true → after.2 = w)
  ∧ (verifyTotp "otp-uuid0" "000000" after.2).1 ≠ Throw totp_session_not_found.
Proof.
  split; [repeat split|].
  apply (verifyTotp_keeps_challenge Demo.challenged "otp-uuid0" "123456" "000000" "2");
    reflexivity.
Defined.

(** C2, witness: alice (no second factor) and bob (second factor) in
    [Demo.world]. *)
Lemma login_session_or_challenge_witness :
  let w := Demo.world in
  ((getUserByUsername "a@example.com" w).1 = Ok (Some Demo.alice)
   ∧ argon2_verify (User.password Demo.alice) "Secr3t!!" = true
   ∧ User.totpEnabled Demo.alice = false
   ∧ (getUserByUsername "b@example.com" w).1 = Ok (Some Demo.bob)
   ∧ argon2_verify (User.password Demo.bob) "hunter22" = true
   ∧ User.totpEnabled Demo.bob = true)
  ∧ ((login "a@example.com" "Secr3t!!" w).1 = Ok (sessionId_of "uuid0")
     ∧ resolve "uuid0" (login "a@example.com" "Secr3t!!" w).2 = Some "1"
     ∧ cache (login "a@example.com" "Secr3t!!" w).2 !! "otp-uuid0" = None)
  ∧ ((login "b@example.com" "hunter22" w).1 = Ok (totpSessionId_of "otp-uuid0")
     ∧ cache (login "b@example.com" "hunter22" w).2 !! "otp-uuid0" = Some "2"
     ∧ resolve "uuid0" (login "b@example.com" "hunter22" w).2 = None).
Proof.
  split; [repeat split|]. split.
  - destruct (login_session_or_challenge Demo.world "a@example.com" "Secr3t!!"
                Demo.alice ltac:(reflexivity) ltac:(reflexivity)) as [Hsession _].
    destruct (Hsession ltac:(reflexivity)) as (Hr & Hres & _ & Hframe).
    split; [exact Hr|]. split; [exact Hres|].
    rewrite Hframe; [reflexivity | discriminate | discriminate].
  - destruct (login_session_or_challenge Demo.world "b@example.com" "hunter22"
                Demo.bob ltac:(reflexivity) ltac:(reflexivity)) as [_ Hchallenge].
    destruct (Hchallenge ltac:(reflexivity)) as (Hr & Hc & Hframe).
    split; [exact Hr|]. split; [exact Hc|].
    unfold resolve. rewrite Hframe; [reflexivity | discriminate].
Defined.

(** X26, witness: alice changes her password, or her username, in
    [Demo.logged_in]; her sessions uuid0 and uuid1 no longer resolve. *)
Lemma credential_change_revokes_sessions_witness :
  let w := Demo.logged_in in
  let p := changePassword "Secr3t!!" "N3wSecr3t!!" 1 w in
  let u := changeUsername "c@example.com" "Secr3t!!" 1 w in
  (p.1 = Ok true ∧ u.1 = Ok true
   ∧ resolve "uuid0" w = Some "1" ∧ resolve "uuid1" w = Some "1")
  ∧ (sessions_revoked 1 w p.2 ∧ resolve "uuid0" p.2 = None ∧ resolve "uuid1" p.2 = None)
  ∧ (sessions_revoked 1 w u.2 ∧ resolve "uuid0" u.2 = None ∧ resolve "uuid1" u.2 = None).
Proof.
  split; [repeat split|].
  destruct (credential_change_revokes_sessions Demo.logged_in 1
              "Secr3t!!" "N3wSecr3t!!" "c@example.com" "Secr3t!!") as [Hp Hu].
  specialize (Hp ltac:(reflexivity)). specialize (Hu ltac:(reflexivity)).
  split.
  - split; [exact Hp|]. destruct Hp as [_ Hp].
    split; [apply (Hp "uuid0") | apply (Hp "uuid1")]; reflexivity.
  - split; [exact Hu|]. destruct Hu as [_ Hu].
    split; [apply (Hu "uuid0") | apply (Hu "uuid1")]; reflexivity.
Defined.

(** A session that [login] issued no longer resolves once the password
    has been changed. *)
Example login_then_changePassword :
  let logged := login "a@example.com" "Secr3t!!" Demo.world in
  let changed := changePassword "Secr3t!!" "N3wSecr3t!!" 1 logged.2 in
  resolve "uuid0" logged.2 = Some "1"
  ∧ changed.1 = Ok true
  ∧ resolve "uuid0" changed.2 = None
  ∧ cache changed.2 = ∅.
Proof. vm_compute. repeat split. Qed.

(** The sweep for alice leaves bob's session alone. *)
Example changePassword_other_user_session :
  resolve "uuid2" (changePassword "Secr3t!!" "N3wSecr3t!!" 1 Demo.logged_in).2
  = Some "2".
Proof. vm_compute. reflexivity. Qed.

(** C4, witness: the world right after the first registration. *)
Lemma single_operator_witness :
  let w := (serve (Register "a@example.com" "Secr3t!!" None) Demo.empty).2 in
  reachable w
  ∧ ∃ operators,
      (getOperators w).1 = Ok operators
      ∧ (List.length operators ≤ 1)%nat
      ∧ (operators ≠ [] →
         register "c@example.com" "0therPass" None w = (Throw admin_already_exists, w)).
Proof.
  assert (Hreach : reachable
            (serve (Register "a@example.com" "Secr3t!!" None) Demo.empty).2).
  { apply reachable_serve, reachable_init. reflexivity. }
  split; [exact Hreach|].
  apply (single_operator _ "c@example.com" "0therPass" None Hreach).
Defined.

(** The operator row of that world is there, so the second registration is
    refused. *)
Example second_register_refused :
  let w := (serve (Register "a@example.com" "Secr3t!!" None) Demo.empty).2 in
  List.length (users w) = 1
  ∧ serve (Register "c@example.com" "0therPass" None) w
    = (Some admin_already_exists, w).
Proof. vm_compute. repeat split. Qed.

(** C5, witness: the reset of the operator password in
    [Demo.reset_requested], where alice is the operator. *)
Lemma changeOperatorPassword_consumes_request_witness :
  let w := Demo.reset_requested in
  let after := changeOperatorPassword "N3wSecr3t!!" w in
  failure after.1 = None
  ∧ ∃ user,
      (getFirstOperator w).1 = Ok (Some user)
      ∧ after.1 = Ok (User.username user)
      ∧ (∃ row, (getFirstOperator after.2).1 = Ok (Some row)
                ∧ User.id row = User.id user
                ∧ User.password row = argon2_hash (entropy w) "N3wSecr3t!!"
                ∧ User.totpEnabled row = false
                ∧ User.totpSecret row = None)
      ∧ passwordChangeRequest after.2 = false
      ∧ changeOperatorPassword "again" after.2
        = (Throw no_change_password_request, after.2).
Proof.
  split; [reflexivity|].
  apply (proj2 (changeOperatorPassword_consumes_request Demo.reset_requested
                  "N3wSecr3t!!" "again")).
  reflexivity.
Defined.

(** C6: the code at the failing input.  In [Demo.challenged] and in the
    world that the first verification leaves, [verifyTotp] returns the same
    value, true, while the sessions it creates differ; no reading of the
    returned value gives the id of the new session in both calls.  The
    method's own comment promises a token and [login] returns
    { sessionId } after the same [setSession]. *)
Lemma verifyTotp_result_is_no_session_id :
  let w := Demo.challenged in
  let w' := (verifyTotp "otp-uuid0" "123456" w).2 in
  ((verifyTotp "otp-uuid0" "123456" w).1 = Ok true
   ∧ (verifyTotp "otp-uuid0" "123456" w').1 = Ok true)
  ∧ ¬ ∃ read : bool → string,
        returns_new_session_id read w "otp-uuid0" "123456"
        ∧ returns_new_session_id read w' "otp-uuid0" "123456".
Proof.
  split; [split; reflexivity|].
  intros (read & (r1 & H1 & _ & Hafter) & (r2 & H2 & Hbefore & _)).
  assert (r1 = true) as -> by (vm_compute in H1; congruence).
  assert (r2 = true) as -> by (vm_compute in H2; congruence).
  exact (Hafter Hbefore).
Qed.

(** X27, witness: bob passes the second factor in [Demo.challenged]. *)
Lemma verifyTotp_issues_session_witness :
  let w := Demo.challenged in
  let after := verifyTotp "otp-uuid0" "123456" w in
  let sessionId := uuidv4 (entropy w) in
  (cache w !! "otp-uuid0" = Some "2"
   ∧ (getUserByNumber (Number "2") w).1 = Ok (Some Demo.bob)
   ∧ TotpAuthenticator_check "123456" (decrypt "JBSWY3DPEHPK3PXP" "-uuid7") = true)
  ∧ after.1 = Ok true
  ∧ resolve sessionId after.2 = Some (toString (User.id Demo.bob))
  ∧ cache after.2 !! trackingKey (User.id Demo.bob) sessionId
    = Some (trackingValue sessionId).
Proof.
  split; [repeat split|].
  exact (verifyTotp_issues_session Demo.challenged "otp-uuid0" "123456" "2"
           Demo.bob "JBSWY3DPEHPK3PXP" "-uuid7"
           ltac:(reflexivity) ltac:(reflexivity) ltac:(reflexivity)
           ltac:(reflexivity) ltac:(reflexivity) ltac:(reflexivity)
           ltac:(reflexivity) ltac:(reflexivity) ltac:(reflexivity)).
Defined.

(** The new session of that call is uuid1, for row 2. *)
Example verifyTotp_new_session :
  let after := verifyTotp "otp-uuid0" "123456" Demo.challenged in
  resolve "uuid1" after.2 = Some "2"
  ∧ cache after.2 !! "session:2:uuid1" = Some "session:uuid1".
Proof. vm_compute. repeat split. Qed.

(** C7, witness: carol holds a secret and a salt and confirms her first
    code in [Demo.enrolling]. *)
Lemma totp_invariant_preserved_witness :
  let w := Demo.enrolling in
  let after := (serve (SetupTotp 3 "123456") w).2 in
  (NoDup (List.map User.id (users w)) ∧ totp_invariant w
   ∧ (setupTotp 3 "123456" w).1 = Ok true)
  ∧ totp_invariant after
  ∧ NoDup (List.map User.id (users after))
  ∧ (∀ row, In row (users after) →
            User.totpSecret row = None → User.totpEnabled row = false)
  ∧ ∃ user, (getUserById 3 w).1 = Ok (Some user)
            ∧ User.totpEnabled user = false
            ∧ truthy_opt (User.totpSecret user) = true
            ∧ truthy_opt (User.salt user) = true.
Proof.
  assert (Hnd : NoDup (List.map User.id (users Demo.enrolling)))
    by (apply (bool_decide_unpack _); vm_compute; reflexivity).
  assert (Hinv : totp_invariant Demo.enrolling).
  { unfold totp_invariant, Demo.enrolling. simpl.
    repeat (constructor; [intros E; try discriminate E; split; discriminate|]).
    constructor. }
  destruct (totp_invariant_preserved (SetupTotp 3 "123456") Demo.enrolling 3
              "123456" Hnd Hinv) as (Hafter & Hids & Hnull & Hsetup).
  split; [split; [exact Hnd | split; [exact Hinv | reflexivity]]|].
  split; [exact Hafter|]. split; [exact Hids|]. split; [exact Hnull|].
  apply Hsetup. reflexivity.
Defined.

(** After that request carol's row has totpEnabled set. *)
Example setupTotp_enables :
  (getUserById 3 (serve (SetupTotp 3 "123456") Demo.enrolling).2).1
  = Ok (Some (User.mk 3 "c@example.com" "argon2:correcthorse" true
                (Some "JBSWY3DPEHPK3PXP") (Some "-uuid9") "fr" false)).
Proof. vm_compute. reflexivity. Qed.

(** C8, witness: alice asks for bob's address in [Demo.logged_in]. *)
Lemma failure_has_no_effect_witness :
  let w := Demo.logged_in in
  ((getUserByUsername (trim_toLowerCase "b@example.com") w).1 = Ok (Some Demo.bob)
   ∧ demoMode w = false
   ∧ (getUserById 1 w).1 = Ok (Some Demo.alice)
   ∧ argon2_verify (User.password Demo.alice) "Secr3t!!" = true
   ∧ isEmail (trim_toLowerCase "b@example.com") = true)
  ∧ changeUsername "b@example.com" "Secr3t!!" 1 w = (Throw user_already_exists, w)
  ∧ (∀ e, (serve (ChangeUsername "b@example.com" "Secr3t!!" 1) w).1 = Some e →
          (serve (ChangeUsername "b@example.com" "Secr3t!!" 1) w).2 = w).
Proof.
  split; [repeat split|].
  destruct (failure_has_no_effect (ChangeUsername "b@example.com" "Secr3t!!" 1)
              Demo.logged_in "b@example.com" "Secr3t!!" 1 Demo.bob)
    as [Hall Hname].
  split; [|exact Hall].
  destruct (Hname ltac:(reflexivity)) as [_ Hexact].
  apply (Hexact ltac:(reflexivity) Demo.alice); reflexivity.
Defined.

(** C9, witness: a new password of 11 characters is accepted, one of 7
    characters is refused, in [Demo.world]. *)
Lemma changePassword_preconditions_witness :
  let w := Demo.world in
  (demoMode w = false
   ∧ (getUserById 1 w).1 = Ok (Some Demo.alice)
   ∧ argon2_verify (User.password Demo.alice) "Secr3t!!" = true
   ∧ (String.length "short77" < 8)%nat
   ∧ failure (changePassword "Secr3t!!" "N3wSecr3t!!" 1 w).1 = None)
  ∧ changePassword "Secr3t!!" "short77" 1 w = (Throw invalid_password_length, w)
  ∧ ∃ row, (getUserById 1 (changePassword "Secr3t!!" "N3wSecr3t!!" 1 w).2).1
           = Ok (Some row)
           ∧ User.password row = argon2_hash (entropy w) "N3wSecr3t!!".
Proof.
  split; [repeat split; simpl; lia|].
  split.
  - exact (proj2 (proj2 (changePassword_preconditions Demo.world "Secr3t!!"
                           "short77" 1)) ltac:(reflexivity) Demo.alice
             ltac:(reflexivity) ltac:(reflexivity) ltac:(simpl; lia)).
  - apply (proj1 (proj2 (changePassword_preconditions Demo.world "Secr3t!!"
                           "N3wSecr3t!!" 1))).
    reflexivity.
Defined.


(** ** Further runs on the concrete collaborators *)

(** Enrolment of alice in [Demo.world]. *)
Example getTotpUri_setupTotp_run :
  let offered := getTotpUri 1 "Secr3t!!" Demo.world in
  offered.1
  = Ok ("otpauth://totp/Runtipi:a@example.com?secret=JBSWY3DPEHPK3PXP",
        "JBSWY3DPEHPK3PXP")
  ∧ (getUserById 1 offered.2).1
    = Ok (Some (User.mk 1 "a@example.com" "argon2:Secr3t!!" false
                  (Some "JBSWY3DPEHPK3PXP") (Some "-uuid1") "en" true))
  ∧ (setupTotp 1 "000000" offered.2).1 = Throw totp_invalid_code
  ∧ (setupTotp 1 "123456" offered.2).1 = Ok true
  ∧ (setupTotp 1 "123456" Demo.world).1 = Throw totp_already_enabled.
Proof. vm_compute. repeat split. Qed.

(** Outcomes of a few requests in [Demo.logged_in]. *)
Example outcomes_run :
  let w := Demo.logged_in in
  (login "nobody@example.com" "x" w).1 = Throw user_not_found
  ∧ (login "a@example.com" "wrong" w).1 = Throw invalid_credentials
  ∧ (verifyTotp "otp-none" "123456" w).1 = Throw totp_session_not_found
  ∧ (disableTotp 1 "Secr3t!!" w).1 = Throw totp_not_enabled
  ∧ (disableTotp 2 "hunter22" w).1 = Ok true
  ∧ (changeLocale "de" 1 w).1 = Throw invalid_locale
  ∧ (changeLocale "fr" 1 w).1 = Ok true
  ∧ (changeUsername "c@example.com" "Secr3t!!" 1 w).1 = Ok true
  ∧ (changeUsername "not an address" "Secr3t!!" 1 w).1 = Throw invalid_username
  ∧ (serve (ChangePassword "Secr3t!!" "N3wSecr3t!!" 1) (with_demoMode true w)).1
    = Some not_allowed_in_demo.
Proof. vm_compute. repeat split. Qed.

(** The hash of the concrete collaborators verifies its own password. *)
Lemma demo_hash_verifies (r : nat) (plain : string) :
  argon2_verify (argon2_hash r plain) plain = true.
Proof. apply (String.eqb_refl ("argon2:" +:+ plain)). Qed.

(** X5, witness: alice enrols in [Demo.world]. *)
Lemma getTotpUri_then_setupTotp_witness :
  let w := Demo.world in
  let offered := getTotpUri 1 "Secr3t!!" w in
  let confirmed := setupTotp 1 "123456" offered.2 in
  (offered.1
   = Ok ("otpauth://totp/Runtipi:a@example.com?secret=JBSWY3DPEHPK3PXP",
         "JBSWY3DPEHPK3PXP")
   ∧ TotpAuthenticator_check "123456" "JBSWY3DPEHPK3PXP" = true)
  ∧ confirmed.1 = Ok true
  ∧ ∃ row, (getUserById 1 confirmed.2).1 = Ok (Some row)
           ∧ User.totpEnabled row = true
           ∧ (∃ salt, User.salt row = Some salt
                      ∧ User.totpSecret row = Some (encrypt "JBSWY3DPEHPK3PXP" salt)).
Proof.
  split; [split; reflexivity|].
  exact (@getTotpUri_then_setupTotp Demo.collaborators Demo.world 1 "Secr3t!!" "123456"
           "otpauth://totp/Runtipi:a@example.com?secret=JBSWY3DPEHPK3PXP"
           "JBSWY3DPEHPK3PXP"
           (λ _, eq_refl) (λ _, eq_refl) (λ _, eq_refl)
           ltac:(reflexivity) ltac:(reflexivity)).
Defined.

(** X6, witness: the first registration, on [Demo.empty]. *)
Lemma register_outcome_witness :
  let w := Demo.empty in
  let after := register "a@example.com" "Secr3t!!" None w in
  ((getOperators w).1 = Ok []
   ∧ truthy "a@example.com" && truthy "Secr3t!!" = true
   ∧ (getUserByUsername "a@example.com" w).1 = Ok None)
  ∧ after.1 = Ok true
  ∧ users after.2
    = ([] ++ [User.mk (nextId []) "a@example.com"
                (argon2_hash 0 "Secr3t!!") false None None
                (getLocaleFromString None) true])%list
  ∧ resolve (uuidv4 1) after.2 = Some (toString (nextId []))
  ∧ (isConfigured after.2).1 = Ok true.
Proof.
  split; [repeat split|].
  destruct (@register_outcome Demo.collaborators
             Demo.empty "a@example.com" "Secr3t!!" None
              ltac:(reflexivity)) as [_ Hrun].
  destruct (Hrun ltac:(reflexivity)) as [_ Hvalid].
  destruct (Hvalid ltac:(reflexivity)) as [_ Hfree].
  exact (Hfree ltac:(reflexivity)).
Defined.

(** X7, witness: register on [Demo.empty], then sign in. *)
Lemma register_then_login_witness :
  let registered := register "a@example.com" "Secr3t!!" None Demo.empty in
  let logged := login (trim_toLowerCase "a@example.com") "Secr3t!!" registered.2 in
  let sessionId := uuidv4 (entropy registered.2) in
  registered.1 = Ok true
  ∧ logged.1 = Ok (sessionId_of sessionId)
  ∧ resolve sessionId logged.2 = Some (toString (nextId (users Demo.empty))).
Proof.
  split; [reflexivity|].
  exact (@register_then_login Demo.collaborators
             Demo.empty "a@example.com" "Secr3t!!" None
           demo_hash_verifies ltac:(reflexivity)).
Defined.

(** X9, witness: bob turns the second factor off in [Demo.world] and signs
    in. *)
Lemma disableTotp_then_login_witness :
  let w := Demo.world in
  let disabled := disableTotp 2 "hunter22" w in
  let logged := login "b@example.com" "hunter22" disabled.2 in
  let sessionId := uuidv4 (entropy w) in
  ((getUserById 2 w).1 = Ok (Some Demo.bob)
   ∧ (getUserByUsername "b@example.com" w).1 = Ok (Some Demo.bob)
   ∧ disabled.1 = Ok true)
  ∧ logged.1 = Ok (sessionId_of sessionId)
  ∧ resolve sessionId logged.2 = Some (toString 2).
Proof.
  split; [repeat split|].
  exact (@disableTotp_then_login Demo.collaborators
             Demo.world 2 "b@example.com" "hunter22" Demo.bob
           ltac:(reflexivity) ltac:(reflexivity) ltac:(reflexivity)).
Defined.

(** X13, witness: alice changes her password in [Demo.logged_in]. *)
Lemma changePassword_then_login_witness :
  let w := Demo.logged_in in
  let changed := changePassword "Secr3t!!" "N3wSecr3t!!" 1 w in
  ((getUserById 1 w).1 = Ok (Some Demo.alice)
   ∧ (getUserByUsername "a@example.com" w).1 = Ok (Some Demo.alice)
   ∧ changed.1 = Ok true
   ∧ argon2_verify (argon2_hash (entropy w) "N3wSecr3t!!") "Secr3t!!" = false)
  ∧ failure (login "a@example.com" "N3wSecr3t!!" changed.2).1 = None
  ∧ login "a@example.com" "Secr3t!!" changed.2
    = (Throw invalid_credentials, changed.2).
Proof.
  split; [repeat split|].
  destruct (@changePassword_then_login Demo.collaborators
             Demo.logged_in "Secr3t!!" "N3wSecr3t!!"
              "a@example.com" 1 Demo.alice demo_hash_verifies
              ltac:(reflexivity) ltac:(reflexivity) ltac:(reflexivity))
    as [Hnew Hold].
  split; [exact Hnew | exact (Hold ltac:(reflexivity))].
Defined.

(** X17, witness: bob signs in with both factors in [Demo.world]. *)
Lemma login_then_verifyTotp_session_witness :
  let w := Demo.world in
  let logged := login "b@example.com" "hunter22" w in
  let challenge := generateSessionId (entropy w) "otp" in
  (Number (toString (User.id Demo.bob)) = Some (User.id Demo.bob)
   ∧ (getUserByUsername "b@example.com" w).1 = Ok (Some Demo.bob)
   ∧ (getUserById (User.id Demo.bob) w).1 = Ok (Some Demo.bob)
   ∧ TotpAuthenticator_check "123456" (decrypt "JBSWY3DPEHPK3PXP" "-uuid7") = true
   ∧ TotpAuthenticator_check "000000" (decrypt "JBSWY3DPEHPK3PXP" "-uuid7") = false)
  ∧ logged.1 = Ok (totpSessionId_of challenge)
  ∧ (verifyTotp challenge "123456" logged.2).1 = Ok true
  ∧ resolve (uuidv4 (S (entropy w))) (verifyTotp challenge "123456" logged.2).2
    = Some (toString (User.id Demo.bob))
  ∧ verifyTotp challenge "000000" logged.2 = (Throw totp_invalid_code, logged.2).
Proof.
  split; [repeat split|].
  destruct (@login_then_verifyTotp_session Demo.collaborators
             Demo.world "b@example.com" "hunter22"
              "123456" Demo.bob "JBSWY3DPEHPK3PXP" "-uuid7"
              ltac:(reflexivity) ltac:(reflexivity) ltac:(reflexivity)
              ltac:(reflexivity) ltac:(reflexivity) ltac:(reflexivity)
              ltac:(reflexivity) ltac:(reflexivity) ltac:(reflexivity))
    as (Hlogin & Hgood & _).
  destruct (@login_then_verifyTotp_session Demo.collaborators
             Demo.world "b@example.com" "hunter22"
              "000000" Demo.bob "JBSWY3DPEHPK3PXP" "-uuid7"
              ltac:(reflexivity) ltac:(reflexivity) ltac:(reflexivity)
              ltac:(reflexivity) ltac:(reflexivity) ltac:(reflexivity)
              ltac:(reflexivity) ltac:(reflexivity) ltac:(reflexivity))
    as (_ & _ & Hbad).
  split; [exact Hlogin|].
  destruct (Hgood ltac:(reflexivity)) as [Hr Hres].
  split; [exact Hr|]. split; [exact Hres|].
  exact (Hbad ltac:(reflexivity)).
Defined.

(** X20, witness: the operator alice is recovered in
    [Demo.reset_requested]. *)
Lemma changeOperatorPassword_then_login_witness :
  let w := Demo.reset_requested in
  let reset := changeOperatorPassword "N3wSecr3t!!" w in
  let logged := login (User.username Demo.alice) "N3wSecr3t!!" reset.2 in
  let sessionId := uuidv4 (entropy reset.2) in
  ((getFirstOperator w).1 = Ok (Some Demo.alice)
   ∧ (getUserByUsername (User.username Demo.alice) w).1 = Ok (Some Demo.alice)
   ∧ failure reset.1 = None)
  ∧ logged.1 = Ok (sessionId_of sessionId)
  ∧ resolve sessionId logged.2 = Some (toString (User.id Demo.alice)).
Proof.
  split; [repeat split|].
  exact (@changeOperatorPassword_then_login Demo.collaborators
             Demo.reset_requested "N3wSecr3t!!"
           Demo.alice demo_hash_verifies
           ltac:(reflexivity) ltac:(reflexivity) ltac:(reflexivity)).
Defined.

(** X1, witness: an unknown name, a wrong password and a right one in
    [Demo.world]. *)
Lemma login_outcome_witness :
  let w := Demo.world in
  ((getUserByUsername "nobody@example.com" w).1 = Ok None
   ∧ (getUserByUsername "a@example.com" w).1 = Ok (Some Demo.alice)
   ∧ argon2_verify (User.password Demo.alice) "wrong" = false
   ∧ argon2_verify (User.password Demo.alice) "Secr3t!!" = true)
  ∧ login "nobody@example.com" "Secr3t!!" w = (Throw user_not_found, w)
  ∧ login "a@example.com" "wrong" w = (Throw invalid_credentials, w)
  ∧ failure (login "a@example.com" "Secr3t!!" w).1 = None.
Proof.
  split; [repeat split|].
  split; [|split].
  - exact (proj1 (@login_outcome Demo.collaborators Demo.world
                    "nobody@example.com" "Secr3t!!") ltac:(reflexivity)).
  - exact (proj1 (proj2 (@login_outcome Demo.collaborators Demo.world
                           "a@example.com" "wrong"))
             Demo.alice ltac:(reflexivity) ltac:(reflexivity)).
  - apply (proj2 (proj2 (@login_outcome Demo.collaborators Demo.world
                           "a@example.com" "Secr3t!!"))).
    exists Demo.alice. split; reflexivity.
Defined.

(** X2, witness: the pending challenge of bob in [Demo.challenged]. *)
Lemma verifyTotp_outcome_witness :
  let w := Demo.challenged in
  (truthy_opt (cache w !! "otp-none") = false
   ∧ cache w !! "otp-uuid0" = Some "2"
   ∧ (getUserByNumber (Number "2") w).1 = Ok (Some Demo.bob))
  ∧ verifyTotp "otp-none" "123456" w = (Throw totp_session_not_found, w)
  ∧ verifyTotp "otp-uuid0" "000000" w = (Throw totp_invalid_code, w)
  ∧ (verifyTotp "otp-uuid0" "123456" w).1 = Ok true.
Proof.
  split; [repeat split|].
  split; [|split].
  - exact (proj1 (@verifyTotp_outcome Demo.collaborators Demo.challenged
                    "otp-none" "123456") ltac:(reflexivity)).
  - destruct (proj2 (@verifyTotp_outcome Demo.collaborators Demo.challenged
                       "otp-uuid0" "000000") "2"
                ltac:(reflexivity) ltac:(reflexivity)) as [_ Hrow].
    destruct (Hrow Demo.bob ltac:(reflexivity)) as (_ & Hbad & _).
    exact (Hbad ltac:(reflexivity) ltac:(reflexivity)).
  - destruct (proj2 (@verifyTotp_outcome Demo.collaborators Demo.challenged
                       "otp-uuid0" "123456") "2"
                ltac:(reflexivity) ltac:(reflexivity)) as [_ Hrow].
    destruct (Hrow Demo.bob ltac:(reflexivity)) as (_ & _ & Hgood).
    exact (Hgood ltac:(reflexivity) ltac:(reflexivity)).
Defined.

(** X3, witness: carol confirms her first code in [Demo.enrolling]; alice,
    who never asked for a secret, is told that TOTP is already enabled. *)
Lemma setupTotp_outcome_witness :
  let w := Demo.enrolling in
  (demoMode w = false
   ∧ (getUserById 3 w).1 = Ok (Some Demo.carol)
   ∧ (getUserById 1 w).1 = Ok (Some Demo.alice))
  ∧ setupTotp 1 "123456" w = (Throw totp_already_enabled, w)
  ∧ (setupTotp 3 "123456" w).1 = Ok true
  ∧ cache (setupTotp 3 "123456" w).2 = cache w
  ∧ ∃ row, (getUserById 3 (setupTotp 3 "123456" w).2).1 = Ok (Some row)
           ∧ User.totpEnabled row = true
           ∧ User.totpSecret row = User.totpSecret Demo.carol
           ∧ User.salt row = User.salt Demo.carol
           ∧ User.password row = User.password Demo.carol.
Proof.
  split; [repeat split|].
  split.
  - destruct (proj2 (@setupTotp_outcome Demo.collaborators Demo.enrolling 1
                       "123456") ltac:(reflexivity)) as [_ Hrow].
    destruct (Hrow Demo.alice ltac:(reflexivity)) as (Hno & _).
    exact (Hno ltac:(reflexivity)).
  - destruct (proj2 (@setupTotp_outcome Demo.collaborators Demo.enrolling 3
                       "123456") ltac:(reflexivity)) as [_ Hrow].
    destruct (Hrow Demo.carol ltac:(reflexivity)) as (_ & _ & Hgo).
    exact (Hgo ltac:(reflexivity) ltac:(reflexivity)).
Defined.

(** X4, witness: alice asks for a secret in [Demo.world]; she has no salt
    yet, so one is drawn. *)
Lemma getTotpUri_outcome_witness :
  let w := Demo.world in
  let after := getTotpUri 1 "Secr3t!!" w in
  let key := TotpAuthenticator_generateSecret (entropy w) in
  let salt :=
    if truthy_opt (User.salt Demo.alice) then default "" (User.salt Demo.alice)
    else generateSessionId (S (entropy w)) "" in
  (demoMode w = false
   ∧ (getUserById 1 w).1 = Ok (Some Demo.alice)
   ∧ argon2_verify (User.password Demo.alice) "Secr3t!!" = true
   ∧ User.totpEnabled Demo.alice = false)
  ∧ after.1 = Ok (TotpAuthenticator_keyuri (User.username Demo.alice)
                    "Runtipi" key, key)
  ∧ cache after.2 = cache w
  ∧ ∃ row, (getUserById 1 after.2).1 = Ok (Some row)
           ∧ User.totpSecret row = Some (encrypt key salt)
           ∧ User.salt row = Some salt
           ∧ User.totpEnabled row = false
           ∧ User.password row = User.password Demo.alice.
Proof.
  split; [repeat split|].
  destruct (proj2 (@getTotpUri_outcome Demo.collaborators Demo.world 1
                     "Secr3t!!") ltac:(reflexivity)) as [_ Hrow].
  destruct (Hrow Demo.alice ltac:(reflexivity)) as (_ & _ & Hgo).
  exact (Hgo ltac:(reflexivity) ltac:(reflexivity)).
Defined.

(** X8, witness: bob turns the second factor off in [Demo.world]. *)
Lemma disableTotp_outcome_witness :
  let w := Demo.world in
  let after := disableTotp 2 "hunter22" w in
  ((getUserById 2 w).1 = Ok (Some Demo.bob)
   ∧ (getUserById 1 w).1 = Ok (Some Demo.alice)
   ∧ User.totpEnabled Demo.bob = true
   ∧ argon2_verify (User.password Demo.bob) "hunter22" = true)
  ∧ disableTotp 1 "wrong" w = (Throw totp_not_enabled, w)
  ∧ after.1 = Ok true
  ∧ cache after.2 = cache w
  ∧ ∃ row, (getUserById 2 after.2).1 = Ok (Some row)
           ∧ User.totpEnabled row = false
           ∧ User.totpSecret row = None
           ∧ User.salt row = User.salt Demo.bob
           ∧ User.password row = User.password Demo.bob.
Proof.
  split; [repeat split|].
  split.
  - destruct (proj2 (@disableTotp_outcome Demo.collaborators Demo.world 1 "wrong")
                Demo.alice ltac:(reflexivity)) as (Hoff & _).
    exact (Hoff ltac:(reflexivity)).
  - destruct (proj2 (@disableTotp_outcome Demo.collaborators Demo.world 2
                       "hunter22") Demo.bob ltac:(reflexivity)) as (_ & _ & Hgo).
    exact (Hgo ltac:(reflexivity) ltac:(reflexivity)).
Defined.

(** X10, witness: the request is cancelled in [Demo.reset_requested], and
    cancelling in [Demo.world], where there is none, changes nothing. *)
Lemma cancelPasswordChangeRequest_outcome_witness :
  passwordChangeRequest Demo.world = false
  ∧ (cancelPasswordChangeRequest Demo.world).2 = Demo.world
  ∧ (cancelPasswordChangeRequest Demo.reset_requested).1 = Ok true
  ∧ changeOperatorPassword "N3wSecr3t!!"
      (cancelPasswordChangeRequest Demo.reset_requested).2
    = (Throw no_change_password_request,
       (cancelPasswordChangeRequest Demo.reset_requested).2).
Proof.
  split; [reflexivity|].
  destruct (@cancelPasswordChangeRequest_outcome Demo.collaborators Demo.world "x")
    as (_ & _ & Hsame & _).
  destruct (@cancelPasswordChangeRequest_outcome Demo.collaborators
              Demo.reset_requested "N3wSecr3t!!") as (Hr & _ & _ & Hthen).
  split; [exact (Hsame ltac:(reflexivity))|]. split; [exact Hr | exact Hthen].
Defined.

(** X11, witness: alice takes the address c@example.com in
    [Demo.logged_in]; bob's address is refused. *)
Lemma changeUsername_outcome_witness :
  let w := Demo.logged_in in
  let after := changeUsername "c@example.com" "Secr3t!!" 1 w in
  let email := trim_toLowerCase "c@example.com" in
  (demoMode w = false
   ∧ (getUserById 1 w).1 = Ok (Some Demo.alice)
   ∧ argon2_verify (User.password Demo.alice) "Secr3t!!" = true
   ∧ isEmail email = true
   ∧ (getUserByUsername email w).1 = Ok None)
  ∧ after.1 = Ok true
  ∧ ∃ row,
      (getUserById 1 after.2).1 = Ok (Some row)
      ∧ (getUserByUsername email after.2).1 = Ok (Some row)
      ∧ User.username row = email
      ∧ User.id row = User.id Demo.alice
      ∧ User.password row = User.password Demo.alice
      ∧ User.totpEnabled row = User.totpEnabled Demo.alice
      ∧ User.totpSecret row = User.totpSecret Demo.alice
      ∧ User.salt row = User.salt Demo.alice.
Proof.
  split; [repeat split|].
  destruct (proj2 (@changeUsername_outcome Demo.collaborators Demo.logged_in
                     "c@example.com" "Secr3t!!" 1) ltac:(reflexivity))
    as [_ Hrow].
  destruct (Hrow Demo.alice ltac:(reflexivity)) as [_ Hpw].
  destruct (Hpw ltac:(reflexivity)) as [_ Hmail].
  destruct (Hmail ltac:(reflexivity)) as [_ Hfree].
  exact (Hfree ltac:(reflexivity)).
Defined.

(** X12, witness: alice switches to fr in [Demo.logged_in], and de is
    refused for an id that exists and for one that does not. *)
Lemma changeLocale_outcome_witness :
  let w := Demo.logged_in in
  let after := changeLocale "fr" 1 w in
(("de" ∉ Locales) ∧ ("fr" ∈ Locales)
   ∧ (getUserById 1 w).1 = Ok (Some Demo.alice))
  ∧ changeLocale "de" 9 w = (Throw invalid_locale, w)
  ∧ after.1 = Ok true
  ∧ cache after.2 = cache w
  ∧ ∃ row, (getUserById 1 after.2).1 = Ok (Some row)
           ∧ User.locale row = "fr"
           ∧ User.username row = User.username Demo.alice
           ∧ User.password row = User.password Demo.alice
           ∧ User.totpEnabled row = User.totpEnabled Demo.alice.
Proof.
  assert (Hde : "de" ∉ @Locales Demo.collaborators)
    by (apply (bool_decide_unpack _); vm_compute; reflexivity).
  assert (Hfr : "fr" ∈ @Locales Demo.collaborators)
    by (apply (bool_decide_unpack _); vm_compute; reflexivity).
  split; [split; [exact Hde | split; [exact Hfr | reflexivity]]|].
  split.
  - exact (proj1 (@changeLocale_outcome Demo.collaborators Demo.logged_in "de" 9)
             Hde).
  - destruct (proj2 (@changeLocale_outcome Demo.collaborators Demo.logged_in
                       "fr" 1) Hfr) as [_ Hrow].
    exact (Hrow Demo.alice ltac:(reflexivity)).
Defined.

(** X14, witness: the sweep for alice in [Demo.logged_in] leaves bob's
    session uuid2, both its entries. *)
Lemma destroyAllSessionsByUserId_spares_witness :
  let w := Demo.logged_in in
  let after := destroyAllSessionsByUserId 1 w in
  let named k := ∃ k', startsWith (userSessionsPrefix 1) k' = true
                       ∧ cache w !! k' = Some k in
  ((1 ≠ 2)%N ∧ ¬ named (trackingKey 2 "uuid2") ∧ includes_colon "uuid2" = false
   ∧ ¬ named (sessionKey "uuid2"))
  ∧ after.1 = Ok tt
  ∧ cache after.2 !! trackingKey 2 "uuid2" = cache w !! trackingKey 2 "uuid2"
  ∧ resolve "uuid2" after.2 = resolve "uuid2" w.
Proof.
  cbv zeta.
  assert (Hnamed : ∀ k,
            (∃ k', startsWith (userSessionsPrefix 1) k' = true
                   ∧ cache Demo.logged_in !! k' = Some k) →
            k = "session:uuid0" ∨ k = "session:uuid1").
  { intros k (k' & Hp & Hk).
    assert (Hin : (k', k) ∈ map_to_list (cache Demo.logged_in))
      by now apply elem_of_map_to_list.
    vm_compute in Hin.
    repeat (apply elem_of_cons in Hin as [Hin | Hin];
            [injection Hin as -> ->; first [discriminate Hp | tauto]|]).
    inversion Hin. }
  assert (H1 : ¬ ∃ k', startsWith (userSessionsPrefix 1) k' = true
                       ∧ cache Demo.logged_in !! k' = Some (trackingKey 2 "uuid2"))
    by (intros Hn; destruct (Hnamed _ Hn); discriminate).
  assert (H2 : ¬ ∃ k', startsWith (userSessionsPrefix 1) k' = true
                       ∧ cache Demo.logged_in !! k' = Some (sessionKey "uuid2"))
    by (intros Hn; destruct (Hnamed _ Hn); discriminate).
  split; [split; [discriminate | split; [exact H1 | split; [reflexivity | exact H2]]]|].
  destruct (destroyAllSessionsByUserId_spares Demo.logged_in 1 2 "uuid2" "")
    as (Hr & _ & _ & _ & _ & Htracking & Hprimary).
  split; [exact Hr|].
  split; [apply Htracking; [discriminate | exact H1]|].
  apply Hprimary; [reflexivity | exact H2].
Defined.

(** X16, witness: in demo mode a password change is refused, while a
    login goes through as it does outside demo mode. *)
Lemma demo_mode_gate_witness :
  let w := with_demoMode true Demo.world in
  (demo_gated (ChangePassword "Secr3t!!" "N3wSecr3t!!" 1) = true
   ∧ demoMode w = true
   ∧ demo_gated (Login "a@example.com" "Secr3t!!") = false)
  ∧ serve (ChangePassword "Secr3t!!" "N3wSecr3t!!" 1) w
    = (Some not_allowed_in_demo, w)
  ∧ (serve (Login "a@example.com" "Secr3t!!") (with_demoMode true Demo.world)).1
    = (serve (Login "a@example.com" "Secr3t!!") Demo.world).1.
Proof.
  split; [repeat split|].
  split.
  - exact (proj1 (@demo_mode_gate Demo.collaborators
                    (ChangePassword "Secr3t!!" "N3wSecr3t!!" 1)
                    (with_demoMode true Demo.world) true)
             ltac:(reflexivity) ltac:(reflexivity)).
  - exact (proj1 (proj2 (@demo_mode_gate Demo.collaborators
                           (Login "a@example.com" "Secr3t!!") Demo.world true)
                    ltac:(reflexivity))).
Defined.

(** X18, witness: a session id that was never issued, in
    [Demo.logged_in]. *)
Lemma logout_idempotent_witness :
  resolve "uuid9" Demo.logged_in = None
  ∧ logout "uuid9" Demo.logged_in = (Ok true, Demo.logged_in)
  ∧ logout "uuid0" (logout "uuid0" Demo.logged_in).2 = logout "uuid0" Demo.logged_in.
Proof.
  split; [reflexivity|]. split.
  - exact (proj1 (logout_idempotent Demo.logged_in "uuid9")
             ltac:(reflexivity)).
  - exact (proj2 (logout_idempotent Demo.logged_in "uuid0")).
Defined.

(** ** TipiConfig on the concrete platform *)

#[local] Existing Instance ConfigDemo.platform.

(** A new instance reads the file; the file's demoMode and dnsIp win over
    the environment, and postgresPort is 5432. *)
Example getConfig_run :
  let conf := (@TipiConfig.getConfig ConfigDemo.platform ConfigDemo.fresh).1 in
  conf !! "demoMode" = Some (TipiConfig.v_boolean true)
  ∧ conf !! "dnsIp" = Some (TipiConfig.v_string "1.1.1.1")
  ∧ conf !! "postgresPort" = Some (TipiConfig.v_number 5432)
  ∧ conf !! "NODE_ENV" = Some (TipiConfig.v_string "production").
Proof. vm_compute. repeat split. Qed.

(** X21, witness: the file is edited two clock reads after a new instance
    read it; the instance still serves what it read. *)
Lemma getFileConfig_serves_cache_witness :
  let h := ConfigDemo.fresh in
  let first := @TipiConfig.getFileConfig ConfigDemo.platform h in
  let later :=
    @TipiConfig.mkHost ConfigDemo.platform (TipiConfig.self first.2)
      (Some ConfigDemo.edited) 3 in
  (TipiConfig.stale h
   ∧ TipiConfig.settingsSchema_safeParse (TipiConfig.readSettings h)
     = Some ConfigDemo.settings
   ∧ (TipiConfig.Date_now (TipiConfig.clock_reads later)
      - TipiConfig.Date_now (S (TipiConfig.clock_reads h))
      < TipiConfig.cacheTimeout (TipiConfig.self h))%Z)
  ∧ first.1 = ConfigDemo.settings
  ∧ TipiConfig.getFileConfig later = (ConfigDemo.settings, (TipiConfig.now later).2).
Proof.
  cbv zeta.
  assert (Hstale : @TipiConfig.stale ConfigDemo.platform ConfigDemo.fresh)
    by (intros c Hc; discriminate Hc).
  split; [split; [exact Hstale | split; [reflexivity | reflexivity]]|].
  match goal with
  | |- _ ∧ TipiConfig.getFileConfig ?l = _ =>
      exact (@getFileConfig_serves_cache ConfigDemo.platform ConfigDemo.fresh l
               ConfigDemo.settings Hstale ltac:(reflexivity) ltac:(reflexivity)
               ltac:(reflexivity))
  end.
Defined.

(** X22, witness: a new instance over a file that the schema refuses. *)
Lemma getFileConfig_rereads_witness :
  let h :=
    @TipiConfig.mkHost ConfigDemo.platform (TipiConfig.mk ConfigDemo.env None 0 5000)
      (Some {[ "bad" := TipiConfig.v_boolean true ]}) 0 in
  (TipiConfig.stale h
   ∧ TipiConfig.settingsSchema_safeParse (TipiConfig.readSettings h) = None)
  ∧ (TipiConfig.getFileConfig h).1 = ∅
  ∧ TipiConfig.self (TipiConfig.getFileConfig h).2 = TipiConfig.self h.
Proof.
  cbv zeta.
  match goal with
  | |- (TipiConfig.stale ?h ∧ _) ∧ _ =>
      assert (Hstale : TipiConfig.stale h) by (intros c Hc; discriminate Hc);
      destruct (proj1 (@getFileConfig_rereads ConfigDemo.platform h) Hstale)
        as [Hread Hkeep]
  end.
  split; [split; [exact Hstale | reflexivity]|].
  split; [exact Hread | exact (Hkeep ltac:(reflexivity))].
Defined.

(** X24, witness: settings are saved on a new instance whose environment
    has demo mode off; with demo mode on in [config] the call throws. *)
Lemma setSettings_outcome_witness :
  let h := ConfigDemo.fresh in
  let after := @TipiConfig.setSettings ConfigDemo.platform ConfigDemo.edited h in
  let demo :=
    @TipiConfig.mkHost ConfigDemo.platform
      (TipiConfig.mk (<["demoMode" := TipiConfig.v_boolean true]> ConfigDemo.env)
         None 0 5000) None 0 in
  (TipiConfig.field_truthy (TipiConfig.config (TipiConfig.self h) !! "demoMode")
   = false
   ∧ TipiConfig.settingsSchema_safeParse ConfigDemo.edited = Some ConfigDemo.edited
   ∧ TipiConfig.field_truthy
       (TipiConfig.config (TipiConfig.self demo) !! "demoMode") = true)
  ∧ TipiConfig.setSettings ConfigDemo.edited demo
    = (inr TipiConfig.demo_mode_error, demo)
  ∧ TipiConfig.settings_json after.2 = Some (TipiConfig.objRaw ConfigDemo.edited)
  ∧ TipiConfig.fileConfigCache (TipiConfig.self after.2) = Some ConfigDemo.edited.
Proof.
  cbv zeta. split; [repeat split|].
  split.
  - match goal with
    | |- TipiConfig.setSettings _ ?d = _ =>
        exact (proj1 (@setSettings_outcome ConfigDemo.platform d ConfigDemo.edited)
                 ltac:(reflexivity))
    end.
  - destruct (proj2 (@setSettings_outcome ConfigDemo.platform ConfigDemo.fresh
                       ConfigDemo.edited) ltac:(reflexivity)) as [_ Hdata].
    destruct (Hdata ConfigDemo.edited ltac:(reflexivity)) as (Hfile & _ & Hback).
    split; [exact Hfile|].
    exact (proj1 (Hback ltac:(reflexivity))).
Defined.

(** X25, witness: dnsIp is set with writeFile on an instance whose cache is
    one second old; two clock reads later the cached settings are still
    served, while the file holds the new value. *)
Lemma setConfig_keeps_cache_witness :
  let h :=
    @TipiConfig.mkHost ConfigDemo.platform
      (TipiConfig.mk ConfigDemo.env (Some ConfigDemo.settings) 1000 5000)
      (Some ConfigDemo.settings) 2 in
  let after :=
    TipiConfig.setConfig "dnsIp" (TipiConfig.v_string "8.8.8.8") true h in
  let later :=
    @TipiConfig.mkHost ConfigDemo.platform (TipiConfig.self after.2)
      (TipiConfig.settings_json after.2) 4 in
  (after.1 = inl tt
   ∧ (TipiConfig.Date_now (TipiConfig.clock_reads later)
      - TipiConfig.cacheTime (TipiConfig.self h)
      < TipiConfig.cacheTimeout (TipiConfig.self h))%Z)
  ∧ (∃ parsed, TipiConfig.settings_json after.2 = Some (TipiConfig.objRaw parsed))
  ∧ (TipiConfig.getFileConfig later).1 = ConfigDemo.settings.
Proof.
  cbv zeta. split; [split; reflexivity|].
  match goal with
  | |- _ ∧ (TipiConfig.getFileConfig ?l).1 = _ =>
      exact (@setConfig_keeps_cache ConfigDemo.platform
               (@TipiConfig.mkHost ConfigDemo.platform
                  (TipiConfig.mk ConfigDemo.env (Some ConfigDemo.settings) 1000 5000)
                  (Some ConfigDemo.settings) 2) l "dnsIp"
               (TipiConfig.v_string "8.8.8.8") ConfigDemo.settings
               ltac:(reflexivity) ltac:(reflexivity) ltac:(reflexivity)
               ltac:(reflexivity) ltac:(reflexivity))
  end.
Defined.

(** After that call the file does hold the new value. *)
Example setConfig_writes_file :
  TipiConfig.settings_json
    (@TipiConfig.setConfig ConfigDemo.platform "dnsIp"
       (TipiConfig.v_string "8.8.8.8") true
       (@TipiConfig.mkHost ConfigDemo.platform
          (TipiConfig.mk ConfigDemo.env (Some ConfigDemo.settings) 1000 5000)
          (Some ConfigDemo.settings) 2)).2
  = Some (<["dnsIp" := TipiConfig.v_string "8.8.8.8"]> ConfigDemo.settings).
Proof. vm_compute. reflexivity. Qed.

(** ** Sessions that the sweep cannot find *)

(** C3: the code at the failing input.  After the first registration on
    [Demo.empty] the operator holds the session uuid1, with its tracking
    entry session:1:uuid1 naming the primary entry.  A [logout] with the
    session id 1:uuid1 deletes exactly that tracking entry.  The world is
    reachable, the session uuid1 still resolves, and a [changePassword] or
    a [changeUsername] that succeeds there sweeps nothing: uuid1 resolves
    to the user afterwards as it did before, although
    [destroyAllSessionsByUserId] is to destroy all sessions of the user. *)
Lemma credential_change_misses_session :
  let registered := (serve (Register "a@example.com" "Secr3t!!" None) Demo.empty).2 in
  let w := (serve (Logout "1:uuid1") registered).2 in
  let p := changePassword "Secr3t!!" "N3wSecr3t!!" 1 w in
  let u := changeUsername "c@example.com" "Secr3t!!" 1 w in
  reachable w
  ∧ (resolve "uuid1" registered = Some "1"
     ∧ cache registered !! trackingKey 1 "uuid1" = Some (sessionKey "uuid1"))
  ∧ (resolve "uuid1" w = Some "1" ∧ cache w !! trackingKey 1 "uuid1" = None)
  ∧ (p.1 = Ok true ∧ resolve "uuid1" p.2 = Some "1")
  ∧ (u.1 = Ok true ∧ resolve "uuid1" u.2 = Some "1").
Proof.
  cbv zeta. split.
  - apply reachable_serve, reachable_serve, reachable_init. reflexivity.
  - vm_compute. repeat split.
Qed.

